(** * counters-test: resource identity resolution and metrics bootstrap

    A shallow embedding of the metrics module of nielm/counters-test
    (the module that defines [initMetrics], the background task and the
    [handleHttpReq] request handler), and of its logger module
    ([getLogLevel] and the [DiagToBunyanLogger] bridge).

    The module is JavaScript: one asynchronous function with two [await]s,
    three module-level mutable bindings, and calls into collaborators that
    live outside the repository (the GCP resource detector, the
    OpenTelemetry resource and metrics SDK, the Cloud Monitoring exporter,
    the functions framework, the logger).  The embedding keeps

    - the module-level bindings as a record of mutable state,
    - the asynchronous function as a resumption: a computation either
      returns, throws, or suspends at an [await] with a continuation,
    - every call into a collaborator as an event appended to a trace, so
      that the order of the calls can be stated,
    - the behaviour of the collaborators as an input ([World]): what the
      environment holds, what the detector returns, how each awaited
      promise settles, and which calls throw. *)

From stdpp Require Import gmap strings list fin_maps.

Local Open Scope string_scope.
Local Open Scope Z_scope.

(** ** Data *)

(** A JavaScript exception value; only its identity matters here. *)
Definition exn := string.

(** The [TypeError] raised by calling a method on [undefined]. *)
Definition TypeError (method : string) : exn :=
  "TypeError: Cannot read properties of undefined (reading '" ++ method ++ "')".

(** [Semconv] is the object imported from the semantic-conventions
    package.  The package is not part of the repository, so the seven
    constants the module reads from it are the fields of a record and the
    development is parametric in their values. *)
Record SemconvT := {
  SEMRESATTRS_SERVICE_NAMESPACE : string;
  SEMRESATTRS_SERVICE_NAME : string;
  SEMRESATTRS_SERVICE_VERSION : string;
  SEMRESATTRS_K8S_POD_NAME : string;
  SEMRESATTRS_CLOUD_PLATFORM : string;
  SEMRESATTRS_FAAS_ID : string;
  SEMRESATTRS_SERVICE_INSTANCE_ID : string;
}.

(** The values the published package gives to these constants. *)
Definition otel_semconv : SemconvT := {|
  SEMRESATTRS_SERVICE_NAMESPACE := "service.namespace";
  SEMRESATTRS_SERVICE_NAME := "service.name";
  SEMRESATTRS_SERVICE_VERSION := "service.version";
  SEMRESATTRS_K8S_POD_NAME := "k8s.pod.name";
  SEMRESATTRS_CLOUD_PLATFORM := "cloud.platform";
  SEMRESATTRS_FAAS_ID := "faas.id";
  SEMRESATTRS_SERVICE_INSTANCE_ID := "service.instance.id";
|}.

(** The keys the module assigns in [RESOURCE_ATTRIBUTES] are pairwise
    different ([SEMRESATTRS_FAAS_ID] is only read, from the detector). *)
Definition keys_distinct (K : SemconvT) : Prop :=
  NoDup [SEMRESATTRS_SERVICE_NAMESPACE K; SEMRESATTRS_SERVICE_NAME K;
         SEMRESATTRS_SERVICE_VERSION K; SEMRESATTRS_K8S_POD_NAME K;
         SEMRESATTRS_CLOUD_PLATFORM K; SEMRESATTRS_SERVICE_INSTANCE_ID K].

(** [CounterAttributes]: the JSDoc type of [RESOURCE_ATTRIBUTES], an
    object from string keys to string values. *)
Abbreviation CounterAttributes := (gmap string string).

(** A [Resource] of the OpenTelemetry SDK, as far as the module uses it:
    the attribute mapping it reports, and whether asynchronous attributes
    are still unsettled.  Attribute values are strings, as in
    [CounterAttributes]; the one detected value the module reads,
    [faas.id], is a string in the detector. *)
Record Resource := {
  attributes : CounterAttributes;
  asyncAttributesPending : bool;
}.

(** [new Resource(attrs)]: a resource with no asynchronous part. *)
Definition new_Resource (attrs : CounterAttributes) : Resource :=
  {| attributes := attrs; asyncAttributesPending := false |}.

(** Modelled from the spec: [Resource.merge] belongs to the OpenTelemetry
    SDK and is not in the repository.  "combine DetectedResource with the
    explicit ResourceAttributes (explicit keys win)": [this.merge(other)]
    holds every key of either resource, and on a key of both the value of
    [other].  The result is unsettled when either part is. *)
Definition merge (this other : Resource) : Resource :=
  {| attributes := attributes other ∪ attributes this;
     asyncAttributesPending :=
       asyncAttributesPending this || asyncAttributesPending other |}.

(** The resource once its [waitForAsyncAttributes] promise is fulfilled. *)
Definition settled (r : Resource) : Resource :=
  {| attributes := attributes r; asyncAttributesPending := false |}.

(** How an awaited promise ends: fulfilled, rejected, or never. *)
Inductive settle := Fulfilled | Rejected (e : exn) | Never.

(** The two promises [initMetrics] awaits. *)
Inductive promise := DetectedAttributes | MergedAttributes.

Inductive level := TRACE | DEBUG | INFO | WARN | ERROR.

(** What a log call is given.  The JSON rendering of the merged resource
    and a caught exception are kept as values, not rendered. *)
Inductive message :=
| Text (s : string)
| GotResourceAttributes (r : Resource)
| Caught (e : exn).

(** The calls into collaborators that may throw. *)
Inductive call :=
| CDetect
| CMerge
| CNewExporter
| CNewReader
| CNewMeterProvider
| CGetMeter
| CCreateCounter (name : string).

(** Everything the module does that another component can observe, plus
    its reads of [process.env] and writes to [RESOURCE_ATTRIBUTES]. *)
Inductive event :=
| Log (l : level) (m : message)
| GetEnv (name : string)
| SetAttribute (key value : string)
| Detect
| Settled (p : promise)
| Merge
| NewExporter (prefix : string)
| NewReader (exportIntervalMillis exportTimeoutMillis : Z)
| NewMeterProvider (resource : Resource)
| GetMeter (name : string)
| CreateCounter (name : string)
| SetInterval (ms : Z)
| RegisterHttp (name : string)
| Add (counter : string) (n : Z)
| Send (body : string)
| Exit (code : Z).

#[global] Instance settle_eq_dec : EqDecision settle.
Proof. solve_decision. Defined.
#[global] Instance promise_eq_dec : EqDecision promise.
Proof. solve_decision. Defined.
#[global] Instance level_eq_dec : EqDecision level.
Proof. solve_decision. Defined.
#[global] Instance Resource_eq_dec : EqDecision Resource.
Proof. solve_decision. Defined.
#[global] Instance message_eq_dec : EqDecision message.
Proof. solve_decision. Defined.
#[global] Instance call_eq_dec : EqDecision call.
Proof. solve_decision. Defined.
#[global] Instance event_eq_dec : EqDecision event.
Proof. solve_decision. Defined.

(** How the process ends up: serving, exited with a status, or suspended
    for ever in [initMetrics]. *)
Inductive Outcome := Ready | Exited (code : Z) | Stalled.

(** The behaviour of everything outside the module. *)
Record World := {
  (** [process.env] *)
  env : gmap string string;
  (** the resource [new GcpDetectorSync().detect()] returns *)
  detected : Resource;
  (** [gcpResources.waitForAsyncAttributes]: [None] when the method is
      missing, otherwise how the promise it returns ends *)
  detected_wait : option settle;
  (** how the promise of [resources.waitForAsyncAttributes()] ends *)
  merged_wait : settle;
  (** the exception a call throws, if it throws *)
  throws : call → option exn;
}.

(** The module-level bindings, and the trace of events so far. *)
Record State := {
  RESOURCE_ATTRIBUTES : CounterAttributes;
  backgroundCounter : option string;
  requestCounter : option string;
  trace : list event;
}.

(** The bindings when the module starts: [RESOURCE_ATTRIBUTES] is the
    object literal with the three static entries, written in order, and
    the two counters are declared without a value. *)
Definition initial (Semconv : SemconvT) : State := {|
  RESOURCE_ATTRIBUTES :=
    <[SEMRESATTRS_SERVICE_VERSION Semconv := "1.0.0"]>
      (<[SEMRESATTRS_SERVICE_NAME Semconv := "counters-test"]>
         (<[SEMRESATTRS_SERVICE_NAMESPACE Semconv := "nielm"]> ∅));
  backgroundCounter := None;
  requestCounter := None;
  trace := [];
|}.

Definition record (e : event) (s : State) : State :=
  {| RESOURCE_ATTRIBUTES := RESOURCE_ATTRIBUTES s;
     backgroundCounter := backgroundCounter s;
     requestCounter := requestCounter s;
     trace := trace s ++ [e] |}.

Definition assign (key value : string) (s : State) : State :=
  {| RESOURCE_ATTRIBUTES := <[key := value]> (RESOURCE_ATTRIBUTES s);
     backgroundCounter := backgroundCounter s;
     requestCounter := requestCounter s;
     trace := trace s |}.

Definition bind_requestCounter (c : string) (s : State) : State :=
  {| RESOURCE_ATTRIBUTES := RESOURCE_ATTRIBUTES s;
     backgroundCounter := backgroundCounter s;
     requestCounter := Some c;
     trace := trace s |}.

Definition bind_backgroundCounter (c : string) (s : State) : State :=
  {| RESOURCE_ATTRIBUTES := RESOURCE_ATTRIBUTES s;
     backgroundCounter := Some c;
     requestCounter := requestCounter s;
     trace := trace s |}.

(** JavaScript truthiness of [process.env.X] and of [x?.toString()] for a
    string [x]: defined and not the empty string. *)
Definition truthy (v : option string) : bool :=
  match v with
  | Some x => bool_decide (x ≠ "")
  | None => false
  end.

(** ** Asynchronous computations

    A computation started in a state runs until it returns, throws, or
    reaches an [await]; there it stops with the promise it waits for (and
    how that promise will end) and the rest of the function, to be resumed
    from whatever the state is by then. *)
Inductive Step (A : Type) : Type :=
| Ret (a : A) (s : State)
| Throw (e : exn) (s : State)
| Await (p : promise) (o : settle) (s : State) (k : State → Step A).
Arguments Ret {A} a s.
Arguments Throw {A} e s.
Arguments Await {A} p o s k.

Definition Async (A : Type) : Type := State → Step A.

Definition ret {A} (a : A) : Async A := fun s => Ret a s.

Definition throw {A} (e : exn) : Async A := fun s => Throw e s.

Fixpoint bind_step {A B} (x : Step A) (f : A → Async B) : Step B :=
  match x with
  | Ret a s => f a s
  | Throw e s => Throw e s
  | Await p o s k => Await p o s (fun s' => bind_step (k s') f)
  end.

Definition bind {A B} (c : Async A) (f : A → Async B) : Async B :=
  fun s => bind_step (c s) f.

#[global] Instance Async_ret : MRet Async := @ret.
#[global] Instance Async_bind : MBind Async := fun A B f c => bind c f.

Definition emit (e : event) : Async unit := fun s => Ret tt (record e s).

Definition read {A} (f : State → A) : Async A := fun s => Ret (f s) s.

Definition update (f : State → State) : Async unit := fun s => Ret tt (f s).

(** [await p]: suspend until the promise settles; the awaited value is
    handed to the rest of the function. *)
Definition await {A} (p : promise) (o : settle) (a : A) : Async A :=
  fun s => Await p o s (fun s' => Ret a s').

(** A call of an asynchronous function returns to its caller as soon as
    the function reaches its first [await] (or ends).  The caller's
    remaining synchronous code [g] therefore acts on the state before the
    function is resumed, and before a settlement is observed. *)
Definition then_sync {A} (x : Step A) (g : State → State) : Step A :=
  match x with
  | Ret a s => Ret a (g s)
  | Throw e s => Throw e (g s)
  | Await p o s k => Await p o (g s) k
  end.

(** The state a computation has reached. *)
Definition state_of {A} (x : Step A) : State :=
  match x with
  | Ret _ s | Throw _ s | Await _ _ s _ => s
  end.

(** How the promise of an asynchronous function ends. *)
Inductive Completion (A : Type) : Type :=
| Returned (a : A) (s : State)
| Failed (e : exn) (s : State)
| Pending (s : State).
Arguments Returned {A} a s.
Arguments Failed {A} e s.
Arguments Pending {A} s.

(** Run a computation through its awaits.  A fulfilled promise resumes the
    function; a rejected one throws at the [await], and as [initMetrics]
    has no [try], that rejects its promise; a promise that never settles
    leaves it suspended for ever. *)
Fixpoint drive {A} (x : Step A) : Completion A :=
  match x with
  | Ret a s => Returned a s
  | Throw e s => Failed e s
  | Await p o s k =>
      match o with
      | Fulfilled => drive (k (record (Settled p) s))
      | Rejected e => Failed e s
      | Never => Pending s
      end
  end.

Definition final_state {A} (c : Completion A) : State :=
  match c with
  | Returned _ s | Failed _ s | Pending s => s
  end.

(** ** The collaborators *)

Module logger.
Definition debug (m : string) : Async unit := emit (Log DEBUG (Text m)).
Definition info (m : string) : Async unit := emit (Log INFO (Text m)).
Definition warn (m : string) : Async unit := emit (Log WARN (Text m)).
Definition error (e : exn) : Async unit := emit (Log ERROR (Caught e)).
End logger.

(** A call into a collaborator: it throws what the world says it throws,
    and is recorded when it goes through. *)
Definition external (w : World) (c : call) (e : event) : Async unit :=
  match throws w c with
  | Some x => throw x
  | None => emit e
  end.

(** [process.env.NAME] *)
Definition process_env (w : World) (name : string) : Async (option string) :=
  emit (GetEnv name);; mret (env w !! name).

(** [RESOURCE_ATTRIBUTES[key] = value] *)
Definition set_attribute (key value : string) : Async unit :=
  update (assign key value);; emit (SetAttribute key value).

(** [counter.add(n)] on a module-level binding that may still be
    [undefined]. *)
Definition counter_add (c : option string) (n : Z) : Async unit :=
  match c with
  | Some name => emit (Add name n)
  | None => throw (TypeError "add")
  end.

(** ** The module *)

Definition COUNTERS_PREFIX : string := "nielm-test/".
Definition REQUEST_COUNTER : string := COUNTERS_PREFIX ++ "request-counter".
Definition BACKGROUND_COUNTER : string := COUNTERS_PREFIX ++ "background-counter".

(** The texts of the three warnings. *)
Definition POD_NAME_WARNING : string :=
  "WARNING: running under Kubernetes, but K8S_POD_NAME " ++
  "environment variable is not set. " ++
  "This may lead to Send TimeSeries errors".
Definition FAAS_ID_WARNING : string :=
  "WARNING: running under Cloud Functions, but FAAS_ID " ++
  "resource attribute is not set. " ++
  "This may lead to Send TimeSeries errors".
Definition DEFAULT_BEHAVIOR_WARNING : string :=
  "WARNING: Using Default Cloud Functions Behavior".

Section Module.
Variable Semconv : SemconvT.
Variable w : World.

(** [initMetrics] is one function in the source; it is cut here at its
    blank lines into five consecutive blocks.

    In a branch taken because [process.env.K8S_POD_NAME] (or the
    detected [faas.id]) is truthy, the value is a non-empty string, and
    [toString] on a string returns it; [default ""] only names that
    string. *)

(** [if (process.env.KUBERNETES_SERVICE_HOST) { ... }].  The source reads
    [process.env.K8S_POD_NAME] for the test and again for the assignment;
    the environment does not change in between, so it is read once. *)
Definition orchestration_context : Async unit :=
  host ← process_env w "KUBERNETES_SERVICE_HOST";
  if truthy host then
    pod ← process_env w "K8S_POD_NAME";
    if truthy pod then
      set_attribute (SEMRESATTRS_K8S_POD_NAME Semconv) (default "" pod)
    else
      logger.warn POD_NAME_WARNING
  else mret tt.

(** [const gcpResources = new GcpDetectorSync().detect(); if
    (gcpResources.waitForAsyncAttributes) { await ... }] *)
Definition detect_resources : Async Resource :=
  external w CDetect Detect;;
  match detected_wait w with
  | Some o => await DetectedAttributes o (settled (detected w))
  | None => mret (detected w)
  end.

(** [if (process.env.FUNCTION_TARGET &&
    process.env.USE_OTEL_GCF_WORKAROUND) { ... } else { ... }] *)
Definition functions_workaround (gcpResources : Resource) : Async unit :=
  target ← process_env w "FUNCTION_TARGET";
  workaround ←
    (if truthy target then process_env w "USE_OTEL_GCF_WORKAROUND"
     else mret None);
  if truthy target && truthy workaround then
    set_attribute (SEMRESATTRS_CLOUD_PLATFORM Semconv) "generic_task";;
    let faas_id := attributes gcpResources !! SEMRESATTRS_FAAS_ID Semconv in
    if truthy faas_id then
      set_attribute (SEMRESATTRS_SERVICE_INSTANCE_ID Semconv)
        (default "" faas_id)
    else
      logger.warn FAAS_ID_WARNING
  else
    logger.warn DEFAULT_BEHAVIOR_WARNING.

(** [const resources = gcpResources.merge(new
    Resource(RESOURCE_ATTRIBUTES)); await
    resources.waitForAsyncAttributes(); logger.info(...)] *)
Definition resolve_identity (gcpResources : Resource) : Async Resource :=
  explicit ← read RESOURCE_ATTRIBUTES;
  external w CMerge Merge;;
  resources ←
    await MergedAttributes (merged_wait w)
      (settled (merge gcpResources (new_Resource explicit)));
  emit (Log INFO (GotResourceAttributes resources));;
  mret resources.

(** From [const exporter = ...] to the end of the function. *)
Definition bootstrap (resources : Resource) : Async unit :=
  external w CNewExporter (NewExporter "custom.googleapis.com");;
  external w CNewReader (NewReader 10000 10000);;
  external w CNewMeterProvider (NewMeterProvider resources);;
  external w CGetMeter (GetMeter COUNTERS_PREFIX);;
  external w (CCreateCounter REQUEST_COUNTER) (CreateCounter REQUEST_COUNTER);;
  update (bind_requestCounter REQUEST_COUNTER);;
  external w (CCreateCounter BACKGROUND_COUNTER)
    (CreateCounter BACKGROUND_COUNTER);;
  update (bind_backgroundCounter BACKGROUND_COUNTER);;
  logger.info "Metrics initialized, counters ready".

(** [async function initMetrics()] *)
Definition initMetrics : Async unit :=
  logger.debug "initializing metrics";;
  orchestration_context;;
  gcpResources ← detect_resources;
  functions_workaround gcpResources;;
  resources ← resolve_identity gcpResources;
  bootstrap resources.

(** [function backgroundTask()], the timer callback. *)
Definition backgroundTask : Async unit :=
  c ← read backgroundCounter;
  counter_add c 1.

(** The callback registered under the name [handleHttpReq]. *)
Definition handleHttpReq : Async unit :=
  logger.info "handling HTTP request";;
  c ← read requestCounter;
  counter_add c 1;;
  emit (Send "OK").

(** The [then] callback of the promise of [initMetrics]. *)
Definition on_fulfilled : Async unit :=
  emit (SetInterval 2000);;
  logger.info "Background task started - increments counter ever 2 seconds".

(** The [catch] callback. *)
Definition on_rejected (e : exn) : Async unit :=
  logger.error e;;
  emit (Exit 1).

(** What the module does after the call of [initMetrics] has returned
    its promise: it registers the request handler and logs. *)
Definition rest_of_module (s : State) : State :=
  record (Log INFO (Text "HTTP handler ready."))
    (record (RegisterHttp "handleHttpReq") s).

(** The synchronous run of the module. *)
Definition load : Step unit :=
  then_sync (initMetrics (initial Semconv)) rest_of_module.

(** The module load followed by the settlement of the promise chain. *)
Definition main : Outcome * State :=
  match drive load with
  | Returned _ s => (Ready, final_state (drive (on_fulfilled s)))
  | Failed e s => (Exited 1, final_state (drive (on_rejected e s)))
  | Pending s => (Stalled, s)
  end.
End Module.

(** After start-up the event loop runs timer ticks and requests, one at a
    time, in any order. *)
Inductive task := Tick | Request.

Definition run_task (t : task) : Async unit :=
  match t with
  | Tick => backgroundTask
  | Request => handleHttpReq
  end.

(** Run the tasks in order; for each, the exception it ended with, if
    any. *)
Fixpoint run_tasks (ts : list task) (s : State) : list (option exn) * State :=
  match ts with
  | [] => ([], s)
  | t :: ts' =>
      match drive (run_task t s) with
      | Returned _ s' => let '(rs, s'') := run_tasks ts' s' in (None :: rs, s'')
      | Failed e s' => let '(rs, s'') := run_tasks ts' s' in (Some e :: rs, s'')
      | Pending s' => ([], s')
      end
  end.

(** The amounts added to a counter, in order. *)
Definition additions (counter : string) (tr : list event) : list Z :=
  omap (fun e => match e with
                 | Add c n => if decide (c = counter) then Some n else None
                 | _ => None
                 end) tr.

(** The bodies sent in responses, in order. *)
Definition responses (tr : list event) : list string :=
  omap (fun e => match e with Send b => Some b | _ => None end) tr.

(** ** Reading traces *)

(** The resources handed to [new MeterProvider], in order. *)
Definition providers (tr : list event) : list Resource :=
  omap (fun e => match e with NewMeterProvider r => Some r | _ => None end) tr.

(** The names of the counters created, in order. *)
Definition created (tr : list event) : list string :=
  omap (fun e => match e with CreateCounter n => Some n | _ => None end) tr.

(** The exit statuses, in order. *)
Definition exits (tr : list event) : list Z :=
  omap (fun e => match e with Exit c => Some c | _ => None end) tr.

(** The construction of the metrics pipeline proper: the provider and the
    counters. *)
Definition builds_pipeline (e : event) : bool :=
  match e with
  | NewMeterProvider _ | CreateCounter _ => true
  | _ => false
  end.

(** The settlement of the promise [p]. *)
Definition is_settled (p : promise) (e : event) : bool :=
  match e with
  | Settled q => bool_decide (q = p)
  | _ => false
  end.

(** A provider, if that is what the event constructs, is given a settled
    resource. *)
Definition provider_settled (e : event) : bool :=
  match e with
  | NewMeterProvider r => negb (asyncAttributesPending r)
  | _ => true
  end.

(** The calls that make up detection. *)
Definition is_detection (e : event) : bool :=
  match e with
  | Detect | Settled DetectedAttributes => true
  | _ => false
  end.

(** The steps of the orchestration check: the two reads of the
    environment and the assignment of the pod-name key. *)
Definition is_orchestration (Semconv : SemconvT) (e : event) : bool :=
  match e with
  | GetEnv name =>
      bool_decide (name = "KUBERNETES_SERVICE_HOST") ||
      bool_decide (name = "K8S_POD_NAME")
  | SetAttribute key _ => bool_decide (key = SEMRESATTRS_K8S_POD_NAME Semconv)
  | _ => false
  end.

(** The warning with text [m]. *)
Definition is_warning (m : string) (e : event) : bool :=
  match e with
  | Log WARN (Text t) => bool_decide (t = m)
  | _ => false
  end.

Definition is_merge (e : event) : bool :=
  match e with
  | Merge => true
  | _ => false
  end.

(** Neither a counter addition nor a response. *)
Definition is_quiet (e : event) : bool :=
  match e with
  | Add _ _ | Send _ => false
  | _ => true
  end.

(** [guarded a P seen tr]: scanning [tr] from the left, every event in
    [P] is met only after an event in [a] (or [seen] holds from the
    start). *)
Fixpoint guarded (a P : event → bool) (seen : bool) (tr : list event) : bool :=
  match tr with
  | [] => true
  | e :: tr' => (seen || negb (P e)) && guarded a P (seen || a e) tr'
  end.

(** [quiet_after a P seen tr]: no event in [P] is met after an event in
    [a]. *)
Fixpoint quiet_after (a P : event → bool) (seen : bool) (tr : list event) : bool :=
  match tr with
  | [] => true
  | e :: tr' => negb (seen && P e) && quiet_after a P (seen || a e) tr'
  end.

(** ** Descriptions of runs *)

(** Nothing outside the module fails: no call throws and both awaited
    promises are fulfilled. *)
Definition healthy (w : World) : Prop :=
  (∀ c, throws w c = None) ∧
  (detected_wait w = None ∨ detected_wait w = Some Fulfilled) ∧
  merged_wait w = Fulfilled.

(** Something outside the module fails. *)
Definition unhealthy (w : World) : Prop :=
  (∃ c e, throws w c = Some e) ∨
  (∃ o, detected_wait w = Some o ∧ o ≠ Fulfilled) ∨
  merged_wait w ≠ Fulfilled.

(** The attributes the module has assigned by the time it merges, in
    closed form. *)
Definition explicit_attributes (K : SemconvT) (w : World) : CounterAttributes :=
  let host := env w !! "KUBERNETES_SERVICE_HOST" in
  let pod := env w !! "K8S_POD_NAME" in
  let target := env w !! "FUNCTION_TARGET" in
  let workaround := env w !! "USE_OTEL_GCF_WORKAROUND" in
  let faas_id := attributes (detected w) !! SEMRESATTRS_FAAS_ID K in
  let a :=
    if truthy host && truthy pod
    then <[SEMRESATTRS_K8S_POD_NAME K := default "" pod]>
           (RESOURCE_ATTRIBUTES (initial K))
    else RESOURCE_ATTRIBUTES (initial K) in
  if truthy target && truthy workaround then
    if truthy faas_id
    then <[SEMRESATTRS_SERVICE_INSTANCE_ID K := default "" faas_id]>
           (<[SEMRESATTRS_CLOUD_PLATFORM K := "generic_task"]> a)
    else <[SEMRESATTRS_CLOUD_PLATFORM K := "generic_task"]> a
  else a.

(** In a state [s] of a run: every resource given to a provider is the
    settled merge of the detected resource with the closed form, and from
    the merge onwards [RESOURCE_ATTRIBUTES] is the closed form. *)
Definition resolved_in (K : SemconvT) (w : World) (s : State) : Prop :=
  Forall (fun r =>
            r = settled (merge (detected w)
                           (new_Resource (explicit_attributes K w))) ∧
            RESOURCE_ATTRIBUTES s = explicit_attributes K w)
    (providers (trace s)) ∧
  (Merge ∈ trace s → RESOURCE_ATTRIBUTES s = explicit_attributes K w).

(** The warnings a state of a run holds: the pod-name warning when the
    host signal is set without a pod name; from the merge onwards, the
    warning of whichever branch of the function-target test was taken. *)
Definition warned_in (K : SemconvT) (w : World) (s : State) : bool :=
  let host := env w !! "KUBERNETES_SERVICE_HOST" in
  let pod := env w !! "K8S_POD_NAME" in
  let target := env w !! "FUNCTION_TARGET" in
  let workaround := env w !! "USE_OTEL_GCF_WORKAROUND" in
  let faas_id := attributes (detected w) !! SEMRESATTRS_FAAS_ID K in
  (negb (truthy host && negb (truthy pod))
   || existsb (is_warning POD_NAME_WARNING) (trace s)) &&
  (negb (existsb is_merge (trace s) && truthy target && truthy workaround
         && negb (truthy faas_id))
   || existsb (is_warning FAAS_ID_WARNING) (trace s)) &&
  (negb (existsb is_merge (trace s) && negb (truthy target && truthy workaround))
   || existsb (is_warning DEFAULT_BEHAVIOR_WARNING) (trace s)).

(** A run ends ready, past the merge and with a provider, unless
    something outside the module fails. *)
Definition completes (K : SemconvT) (w : World) (m : Outcome * State) : Prop :=
  (m.1 = Ready ∧ existsb is_merge (trace m.2) = true ∧
   providers (trace m.2) ≠ []) ∨
  unhealthy w.

(** The state in which the promise is fulfilled: both counters are bound,
    nothing has been added or sent yet. *)
Definition fulfilled_in (s : State) : Prop :=
  requestCounter s = Some REQUEST_COUNTER ∧
  backgroundCounter s = Some BACKGROUND_COUNTER ∧
  forallb is_quiet (trace s) = true.

(** The state in which the promise is rejected with [e]: the process has
    not exited yet, the background counter is unbound, and a counter has
    been created only if it is the request counter and [e] was thrown by
    the creation of the background counter. *)
Definition rejected_in (w : World) (e : exn) (s : State) : Prop :=
  exits (trace s) = [] ∧
  backgroundCounter s = None ∧
  (created (trace s) = [] ∨
   (created (trace s) = [REQUEST_COUNTER] ∧
    throws w (CCreateCounter BACKGROUND_COUNTER) = Some e)).

(** What holds in the state in which the promise of [initMetrics]
    ends. *)
Definition settles_in (w : World) (c : Completion unit) : Prop :=
  match c with
  | Returned _ s => fulfilled_in s
  | Failed e s => rejected_in w e s
  | Pending _ => True
  end.

#[global] Instance task_eq_dec : EqDecision task.
Proof. solve_decision. Defined.

(** The number of timer ticks, and of requests, among the tasks. *)
Definition ticks (ts : list task) : nat :=
  length (filter (fun t => t = Tick) ts).

Definition requests (ts : list task) : nat :=
  length (filter (fun t => t = Request) ts).


(** ** Properties the specification words differently from the code *)

(** The order of detection as the specification words it: detection first, the
    orchestration check only afterwards. *)
Definition detection_first (K : SemconvT) (w : World) : Prop :=
  ∀ i j e e',
    trace (main K w).2 !! i = Some e →
    trace (main K w).2 !! j = Some e' →
    is_detection e = true → is_orchestration K e' = true → (i < j)%nat.

(** The instance-id property as the specification words its second half: with no
    detected function-instance identifier, the resolved identity has no
    instance-id key. *)
Definition instance_id_omitted (K : SemconvT) (w : World) : Prop :=
  truthy (env w !! "FUNCTION_TARGET") = true →
  truthy (env w !! "USE_OTEL_GCF_WORKAROUND") = true →
  attributes (detected w) !! SEMRESATTRS_FAAS_ID K = None →
  ∀ r, NewMeterProvider r ∈ trace (main K w).2 →
       attributes r !! SEMRESATTRS_SERVICE_INSTANCE_ID K = None.

(** The pod-name property as the specification words its second half: with the host
    signal set and no pod-name variable, the resolved identity has no
    pod-name key. *)
Definition pod_name_omitted (K : SemconvT) (w : World) : Prop :=
  truthy (env w !! "KUBERNETES_SERVICE_HOST") = true →
  env w !! "K8S_POD_NAME" = None →
  ∀ r, NewMeterProvider r ∈ trace (main K w).2 →
       attributes r !! SEMRESATTRS_K8S_POD_NAME K = None.

(** The failure property as the specification words it: when the promise of [initMetrics]
    is rejected, no counter has been created. *)
Definition no_counter_on_failure (K : SemconvT) (w : World) : Prop :=
  ∀ e s, drive (load K w) = Failed e s → created (trace (main K w).2) = [].

(** ** Worlds used as examples *)

(** A process under Kubernetes with a pod name, and a detector whose
    asynchronous attributes settle. *)
Definition w_kubernetes : World := {|
  env := {[ "KUBERNETES_SERVICE_HOST" := "10.0.0.1";
            "K8S_POD_NAME" := "counters-7d9f" ]};
  detected := {| attributes := {[ "cloud.platform" := "gcp_kubernetes_engine" ]};
                 asyncAttributesPending := true |};
  detected_wait := Some Fulfilled;
  merged_wait := Fulfilled;
  throws := fun _ => None;
|}.

(** Under Kubernetes without a pod name in the environment, with a
    detector that reports a pod name of its own. *)
Definition w_kubernetes_no_pod_name : World := {|
  env := {[ "KUBERNETES_SERVICE_HOST" := "10.0.0.1" ]};
  detected := {| attributes := {[ "cloud.platform" := "gcp_kubernetes_engine";
                                  "k8s.pod.name" := "counters-7d9f" ]};
                 asyncAttributesPending := true |};
  detected_wait := Some Fulfilled;
  merged_wait := Fulfilled;
  throws := fun _ => None;
|}.

(** A Cloud Functions instance with the workaround switched on; the
    detector reports the platform and the function-instance identifier. *)
Definition w_functions : World := {|
  env := {[ "FUNCTION_TARGET" := "handleHttpReq";
            "USE_OTEL_GCF_WORKAROUND" := "true" ]};
  detected := {| attributes := {[ "cloud.platform" := "gcp_cloud_functions";
                                  "faas.id" := "abc123" ]};
                 asyncAttributesPending := true |};
  detected_wait := Some Fulfilled;
  merged_wait := Fulfilled;
  throws := fun _ => None;
|}.

(** The same, with a detector that reports no function-instance
    identifier but does report an instance id of its own. *)
Definition w_functions_no_faas_id : World := {|
  env := {[ "FUNCTION_TARGET" := "handleHttpReq";
            "USE_OTEL_GCF_WORKAROUND" := "true" ]};
  detected := {| attributes := {[ "cloud.platform" := "gcp_cloud_functions";
                                  "service.instance.id" := "instance-7" ]};
                 asyncAttributesPending := true |};
  detected_wait := Some Fulfilled;
  merged_wait := Fulfilled;
  throws := fun _ => None;
|}.

(** The creation of the background counter throws. *)
Definition w_background_counter_fails : World := {|
  env := ∅;
  detected := {| attributes := ∅; asyncAttributesPending := false |};
  detected_wait := None;
  merged_wait := Fulfilled;
  throws := fun c =>
    if decide (c = CCreateCounter BACKGROUND_COUNTER)
    then Some "createCounter failed" else None;
|}.

(** The construction of the exporter throws. *)
Definition w_exporter_fails : World := {|
  env := ∅;
  detected := {| attributes := ∅; asyncAttributesPending := false |};
  detected_wait := None;
  merged_wait := Fulfilled;
  throws := fun c =>
    if decide (c = CNewExporter) then Some "no credentials" else None;
|}.

(** The resources the provider is given in these worlds. *)
Definition r_kubernetes : Resource := {|
  attributes := {[ "service.namespace" := "nielm";
                   "service.name" := "counters-test";
                   "service.version" := "1.0.0";
                   "k8s.pod.name" := "counters-7d9f";
                   "cloud.platform" := "gcp_kubernetes_engine" ]};
  asyncAttributesPending := false |}.

Definition r_kubernetes_no_pod_name : Resource := {|
  attributes := {[ "service.namespace" := "nielm";
                   "service.name" := "counters-test";
                   "service.version" := "1.0.0";
                   "cloud.platform" := "gcp_kubernetes_engine";
                   "k8s.pod.name" := "counters-7d9f" ]};
  asyncAttributesPending := false |}.

Definition r_functions : Resource := {|
  attributes := {[ "service.namespace" := "nielm";
                   "service.name" := "counters-test";
                   "service.version" := "1.0.0";
                   "cloud.platform" := "generic_task";
                   "service.instance.id" := "abc123";
                   "faas.id" := "abc123" ]};
  asyncAttributesPending := false |}.

Definition r_functions_no_faas_id : Resource := {|
  attributes := {[ "service.namespace" := "nielm";
                   "service.name" := "counters-test";
                   "service.version" := "1.0.0";
                   "cloud.platform" := "generic_task";
                   "service.instance.id" := "instance-7" ]};
  asyncAttributesPending := false |}.

(** ** Symbolic execution

    The proofs about [main] and [load] walk through the module: the term
    under [run] is brought to head normal form, and when that form is
    stuck on a fact about the world (a truthiness test, how a promise
    settles, whether a call throws) the proof splits on that fact. *)

(** A marker for the term a proof is evaluating. *)
Definition run {A} (x : A) : A := x.

(** ** Further readings of traces *)

(** The periods of the timers registered with [setInterval], in order. *)
Definition intervals (tr : list event) : list Z :=
  omap (fun e => match e with SetInterval ms => Some ms | _ => None end) tr.

(** The names under which request handlers are registered, in order. *)
Definition registrations (tr : list event) : list string :=
  omap (fun e => match e with RegisterHttp n => Some n | _ => None end) tr.

(** The exceptions logged at error severity, in order. *)
Definition errors (tr : list event) : list exn :=
  omap (fun e => match e with Log ERROR (Caught x) => Some x | _ => None end) tr.

(** The read of the environment variable [name]. *)
Definition is_env_read (name : string) (e : event) : bool :=
  match e with
  | GetEnv n => bool_decide (n = name)
  | _ => false
  end.

(** ** The first failure of a run *)

(** What the collaborators make of a run: everything goes through, some
    step fails with an exception, or an awaited promise never settles. *)
Inductive Verdict := Succeeds | Fails (e : exn) | Hangs.

Definition or_else (o : option exn) (k : Verdict) : Verdict :=
  match o with
  | Some e => Fails e
  | None => k
  end.

(** The first step of [initMetrics], in the order of the source, that
    does not go through: the calls into collaborators and the two awaits.
    It mentions neither the environment nor the detected attributes. *)
Definition verdict (w : World) : Verdict :=
  or_else (throws w CDetect)
    match detected_wait w with
    | Some (Rejected e) => Fails e
    | Some Never => Hangs
    | Some Fulfilled | None =>
        or_else (throws w CMerge)
          match merged_wait w with
          | Rejected e => Fails e
          | Never => Hangs
          | Fulfilled =>
              or_else (throws w CNewExporter)
                (or_else (throws w CNewReader)
                   (or_else (throws w CNewMeterProvider)
                      (or_else (throws w CGetMeter)
                         (or_else (throws w (CCreateCounter REQUEST_COUNTER))
                            (or_else (throws w (CCreateCounter BACKGROUND_COUNTER))
                               Succeeds)))))
          end
    end.

Definition outcome_of (v : Verdict) : Outcome :=
  match v with
  | Succeeds => Ready
  | Fails _ => Exited 1
  | Hangs => Stalled
  end.

(** The promise of [initMetrics] ends as the verdict says. *)
Definition settles_as (v : Verdict) (c : Completion unit) : Prop :=
  match c, v with
  | Returned _ _, Succeeds => True
  | Failed e _, Fails e' => e = e'
  | Pending _, Hangs => True
  | _, _ => False
  end.

(** What the trace and the bindings of a finished run look like, for each
    way the run can end. *)
Definition shape_ok (K : SemconvT) (w : World) (m : Outcome * State) : bool :=
  let tr := trace m.2 in
  bool_decide (registrations tr = ["handleHttpReq"]) &&
  match providers tr with
  | [] => true
  | [_] => existsb is_merge tr
  | _ => false
  end &&
  (bool_decide (created tr = []) ||
   bool_decide (created tr = [REQUEST_COUNTER]) ||
   bool_decide (created tr = [REQUEST_COUNTER; BACKGROUND_COUNTER])) &&
  (negb (existsb (is_env_read "K8S_POD_NAME") tr ||
         existsb (is_warning POD_NAME_WARNING) tr)
   || truthy (env w !! "KUBERNETES_SERVICE_HOST")) &&
  (negb (existsb (is_env_read "USE_OTEL_GCF_WORKAROUND") tr)
   || truthy (env w !! "FUNCTION_TARGET")) &&
  match m.1 with
  | Ready =>
      bool_decide (intervals tr = [2000]) &&
      bool_decide (exits tr = []) &&
      (length (errors tr) =? 0)%nat &&
      bool_decide (created tr = [REQUEST_COUNTER; BACKGROUND_COUNTER]) &&
      (length (providers tr) =? 1)%nat &&
      bool_decide (requestCounter m.2 = Some REQUEST_COUNTER) &&
      bool_decide (backgroundCounter m.2 = Some BACKGROUND_COUNTER)
  | Exited c =>
      bool_decide (c = 1) &&
      bool_decide (intervals tr = []) &&
      bool_decide (exits tr = [1]) &&
      (length (errors tr) =? 1)%nat
  | Stalled =>
      bool_decide (intervals tr = []) &&
      bool_decide (exits tr = []) &&
      (length (errors tr) =? 0)%nat &&
      bool_decide (created tr = []) &&
      (length (providers tr) =? 0)%nat &&
      bool_decide (requestCounter m.2 = None) &&
      bool_decide (backgroundCounter m.2 = None)
  end.

(** The keys [initMetrics] may assign in [RESOURCE_ATTRIBUTES], besides
    the three it starts with. *)
Definition assigned_keys (K : SemconvT) : list string :=
  [SEMRESATTRS_SERVICE_NAMESPACE K; SEMRESATTRS_SERVICE_NAME K;
   SEMRESATTRS_SERVICE_VERSION K; SEMRESATTRS_K8S_POD_NAME K;
   SEMRESATTRS_CLOUD_PLATFORM K; SEMRESATTRS_SERVICE_INSTANCE_ID K].

(** A world in which the detector's promise never settles. *)
Definition w_detector_hangs : World := {|
  env := {[ "KUBERNETES_SERVICE_HOST" := "10.0.0.1" ]};
  detected := {| attributes := ∅; asyncAttributesPending := true |};
  detected_wait := Some Never;
  merged_wait := Fulfilled;
  throws := fun _ => None;
|}.

(** Under Kubernetes with the pod-name variable set to the empty
    string. *)
Definition w_kubernetes_empty_pod_name : World := {|
  env := {[ "KUBERNETES_SERVICE_HOST" := "10.0.0.1"; "K8S_POD_NAME" := "" ]};
  detected := {| attributes := {[ "cloud.platform" := "gcp_kubernetes_engine" ]};
                 asyncAttributesPending := true |};
  detected_wait := Some Fulfilled;
  merged_wait := Fulfilled;
  throws := fun _ => None;
|}.

(** Neither signal set: a plain process, with a detector that reports a
    platform and a zone. *)
Definition w_plain : World := {|
  env := ∅;
  detected := {| attributes := {[ "cloud.platform" := "gcp_compute_engine";
                                  "cloud.availability_zone" := "us-central1-a" ]};
                 asyncAttributesPending := true |};
  detected_wait := Some Fulfilled;
  merged_wait := Fulfilled;
  throws := fun _ => None;
|}.

Definition r_plain : Resource := {|
  attributes := {[ "service.namespace" := "nielm";
                   "service.name" := "counters-test";
                   "service.version" := "1.0.0";
                   "cloud.platform" := "gcp_compute_engine";
                   "cloud.availability_zone" := "us-central1-a" ]};
  asyncAttributesPending := false |}.

Definition r_kubernetes_empty_pod_name : Resource := {|
  attributes := {[ "service.namespace" := "nielm";
                   "service.name" := "counters-test";
                   "service.version" := "1.0.0";
                   "cloud.platform" := "gcp_kubernetes_engine" ]};
  asyncAttributesPending := false |}.

(** The Cloud Functions world of [w_functions], with a detector whose
    resource has no [waitForAsyncAttributes]. *)
Definition w_functions_no_wait : World := {|
  env := {[ "FUNCTION_TARGET" := "handleHttpReq";
            "USE_OTEL_GCF_WORKAROUND" := "true" ]};
  detected := {| attributes := {[ "cloud.platform" := "gcp_cloud_functions";
                                  "faas.id" := "abc123" ]};
                 asyncAttributesPending := false |};
  detected_wait := None;
  merged_wait := Fulfilled;
  throws := fun _ => None;
|}.

(** ** The logger module

    The other source file builds the logger and bridges the diagnostics
    of the OpenTelemetry libraries into it.  [bunyan] is not part of the
    repository: its [resolveLevel] and its [DEBUG] level are parameters,
    and so is the JSON rendering of the arguments of a diagnostic. *)

(** [String.prototype.toLowerCase] on the characters of ASCII: the
    letters [A] to [Z] become [a] to [z], every other character stays. *)
Definition lower_ascii (c : Ascii.ascii) : Ascii.ascii :=
  let n := Ascii.nat_of_ascii c in
  if (65 <=? n)%nat && (n <=? 90)%nat then Ascii.ascii_of_nat (n + 32) else c.

Fixpoint toLowerCase (s : string) : string :=
  match s with
  | EmptyString => EmptyString
  | String c s' => String (lower_ascii c) (toLowerCase s')
  end.

(** [String.prototype.toUpperCase], likewise. *)
Definition upper_ascii (c : Ascii.ascii) : Ascii.ascii :=
  let n := Ascii.nat_of_ascii c in
  if (97 <=? n)%nat && (n <=? 122)%nat then Ascii.ascii_of_nat (n - 32) else c.

Fixpoint toUpperCase (s : string) : string :=
  match s with
  | EmptyString => EmptyString
  | String c s' => String (upper_ascii c) (toUpperCase s')
  end.

(** The strings on which the two functions above are those of
    JavaScript. *)
Definition is_ascii (s : string) : bool :=
  forallb (fun c => (Ascii.nat_of_ascii c <? 128)%nat) (String.list_ascii_of_string s).

(** A record handed to the logger: its level, its message and the
    rendered arguments. *)
Record LogRecord := {
  record_level : level;
  record_message : string;
  record_fields : string;
}.

(** The methods of a [DiagLogger]. *)
Inductive DiagMethod := Verbose | Debug | Info | Warn | Error.

#[global] Instance DiagMethod_eq_dec : EqDecision DiagMethod.
Proof. solve_decision. Defined.

Section GetLogLevel.
Variable resolveLevel : string → exn + Z.
Variable bunyan_DEBUG : Z.

(** [function getLogLevel()]: the result, or the exception of
    [bunyan.resolveLevel]. *)
Definition getLogLevel (env : gmap string string) : exn + Z :=
  if truthy (env !! "LOG_LEVEL")
  then resolveLevel (toLowerCase (default "" (env !! "LOG_LEVEL")))
  else inr bunyan_DEBUG.
End GetLogLevel.

(** The five methods of [class DiagToBunyanLogger]; each hands one record
    to the logger, here the list of the records so far. *)
Module DiagToBunyanLogger.
Section Methods.
Context {Arg : Type}.
Variable JSON_stringify : list Arg → string.

Definition verbose (message : string) (args : list Arg) (log : list LogRecord) :
  list LogRecord :=
  log ++ [{| record_level := TRACE; record_message := "otel: " ++ message;
             record_fields := JSON_stringify args |}].

Definition debug (message : string) (args : list Arg) (log : list LogRecord) :
  list LogRecord :=
  log ++ [{| record_level := DEBUG; record_message := "otel: " ++ message;
             record_fields := JSON_stringify args |}].

Definition info (message : string) (args : list Arg) (log : list LogRecord) :
  list LogRecord :=
  log ++ [{| record_level := INFO; record_message := "otel: " ++ message;
             record_fields := JSON_stringify args |}].

Definition warn (message : string) (args : list Arg) (log : list LogRecord) :
  list LogRecord :=
  log ++ [{| record_level := WARN; record_message := "otel: " ++ message;
             record_fields := JSON_stringify args |}].

Definition error (message : string) (args : list Arg) (log : list LogRecord) :
  list LogRecord :=
  log ++ [{| record_level := ERROR; record_message := "otel: " ++ message;
             record_fields := JSON_stringify args |}].
End Methods.
End DiagToBunyanLogger.

(** A call of the method [m] on [OTEL_DIAG_BUNYAN_LOGGER]. *)
Definition OTEL_DIAG_BUNYAN_LOGGER {Arg : Type}
    (JSON_stringify : list Arg → string) (m : DiagMethod) :
  string → list Arg → list LogRecord → list LogRecord :=
  match m with
  | Verbose => DiagToBunyanLogger.verbose JSON_stringify
  | Debug => DiagToBunyanLogger.debug JSON_stringify
  | Info => DiagToBunyanLogger.info JSON_stringify
  | Warn => DiagToBunyanLogger.warn JSON_stringify
  | Error => DiagToBunyanLogger.error JSON_stringify
  end.

(** A stand-in for [bunyan.resolveLevel] in examples: it knows two level
    names and rejects every other string. *)
Definition sample_resolveLevel (name : string) : exn + Z :=
  if decide (name = "info") then inr 30
  else if decide (name = "warn") then inr 40
  else inl ("unknown level name: " ++ name).

(** * Proofs *)

(** ** Facts about traces *)

Lemma guarded_seen a P tr : guarded a P true tr = true.
Proof. induction tr as [|e tr IH]; simpl; auto. Qed.

Lemma guarded_sound a P tr :
  guarded a P false tr = true →
  ∀ j e, tr !! j = Some e → P e = true →
  ∃ i e', (i < j)%nat ∧ tr !! i = Some e' ∧ a e' = true.
Proof.
  induction tr as [|x tr IH]; intros G j e Hj HP; [done|].
  simpl in G. apply andb_prop in G as [G1 G2].
  destruct j as [|j]; simpl in Hj.
  - injection Hj as ->. rewrite HP in G1. discriminate.
  - destruct (a x) eqn:Hax.
    + exists 0%nat, x. split; [lia|]. by split.
    + destruct (IH G2 j e Hj HP) as (i & e' & Hi & He' & Ha).
      exists (S i), e'. split; [lia|]. by split.
Qed.

Lemma quiet_all P a tr :
  quiet_after a P true tr = true → ∀ i e, tr !! i = Some e → P e = false.
Proof.
  revert a. induction tr as [|x tr IH]; intros a Q i e Hi; [done|].
  simpl in Q. apply andb_prop in Q as [Q1 Q2].
  destruct i as [|i]; simpl in Hi.
  - injection Hi as ->. by destruct (P e).
  - by apply (IH a Q2 i).
Qed.

Lemma quiet_after_sound a P tr :
  quiet_after a P false tr = true →
  ∀ i j e e', tr !! i = Some e → tr !! j = Some e' →
  a e = true → P e' = true → (j ≤ i)%nat.
Proof.
  induction tr as [|x tr IH]; intros Q i j e e' Hi Hj Ha HP; [done|].
  simpl in Q.
  destruct j as [|j]; [lia|]. simpl in Hj.
  destruct i as [|i]; simpl in Hi.
  - injection Hi as ->. rewrite Ha in Q.
    rewrite (quiet_all P a tr Q j e' Hj) in HP. discriminate.
  - destruct (a x).
    + rewrite (quiet_all P a tr Q j e' Hj) in HP. discriminate.
    + pose proof (IH Q i j e e' Hi Hj Ha HP). lia.
Qed.

Lemma is_settled_eq p e : is_settled p e = true → e = Settled p.
Proof.
  destruct e; simpl; try discriminate.
  intros H. apply bool_decide_eq_true in H. by subst.
Qed.

Lemma elem_of_providers r tr : NewMeterProvider r ∈ tr ↔ r ∈ providers tr.
Proof.
  unfold providers. rewrite list_elem_of_omap. split.
  - intros H. by exists (NewMeterProvider r).
  - intros (e & He & Heq). destruct e; try discriminate.
    by injection Heq as ->.
Qed.

Lemma elem_of_created n tr : CreateCounter n ∈ tr ↔ n ∈ created tr.
Proof.
  unfold created. rewrite list_elem_of_omap. split.
  - intros H. by exists (CreateCounter n).
  - intros (e & He & Heq). destruct e; try discriminate.
    by injection Heq as ->.
Qed.

Lemma elem_of_exits c tr : Exit c ∈ tr ↔ c ∈ exits tr.
Proof.
  unfold exits. rewrite list_elem_of_omap. split.
  - intros H. by exists (Exit c).
  - intros (e & He & Heq). destruct e; try discriminate.
    by injection Heq as ->.
Qed.

(** ** Walking through the module *)

Ltac whd_model t :=
  eval lazy head beta iota zeta delta
    [main load rest_of_module initMetrics orchestration_context
     detect_resources functions_workaround resolve_identity bootstrap
     on_fulfilled on_rejected backgroundTask handleHttpReq
     mbind mret Async_bind Async_ret bind bind_step ret throw emit read
     update await external process_env set_attribute counter_add
     logger.debug logger.info logger.warn logger.error
     drive then_sync state_of final_state andb] in t.

Ltac norm_model :=
  lazy beta iota zeta delta
    [run main load rest_of_module initMetrics orchestration_context
     detect_resources functions_workaround resolve_identity bootstrap
     on_fulfilled on_rejected backgroundTask handleHttpReq
     mbind mret Async_bind Async_ret bind bind_step ret throw emit read
     update await external process_env set_attribute counter_add
     logger.debug logger.info logger.warn logger.error
     drive then_sync state_of final_state record assign
     bind_requestCounter bind_backgroundCounter initial andb
     trace RESOURCE_ATTRIBUTES backgroundCounter requestCounter app fst snd
     providers created exits omap list_omap].

Ltac blocker c :=
  lazymatch c with
  | if ?c' then _ else _ => blocker c'
  | match ?x with Some _ => _ | None => _ end => blocker x
  | match ?x with Fulfilled => _ | Rejected _ => _ | Never => _ end =>
      blocker x
  | _ => c
  end.

Ltac case_stuck :=
  match goal with
  | |- context [run ?t] =>
      match t with
      | context [if ?c then _ else _] =>
          let b := blocker c in
          let b' := eval cbn [attributes settled] in b in
          change b with b'; destruct b' eqn:?
      | context [match ?x with Some _ => _ | None => _ end] =>
          let b := blocker x in destruct b eqn:?
      | context [match ?x with Fulfilled => _ | Rejected _ => _ | Never => _ end] =>
          let b := blocker x in destruct b eqn:?
      end
  end.

Ltac whd_run :=
  match goal with
  | |- context [run ?t] =>
      let t' := whd_model t in change (run t) with (run t')
  end.

Ltac is_value :=
  lazymatch goal with
  | |- context [run (_, _)] => idtac
  | |- context [run (Ret _ _)] => idtac
  | |- context [run (Throw _ _)] => idtac
  | |- context [run (Await _ _ _ _)] => idtac
  | |- context [run (Returned _ _)] => idtac
  | |- context [run (Failed _ _)] => idtac
  | |- context [run (Pending _)] => idtac
  end.

Ltac exec :=
  whd_run; repeat (tryif is_value then fail else (case_stuck; whd_run)).

Ltac exec_main K w := change (main K w) with (run (main K w)); exec.

(** ** The order of initialization *)

Lemma main_pipeline_guarded K w :
  guarded (is_settled MergedAttributes) builds_pipeline false
    (trace (main K w).2) &&
  forallb provider_settled (trace (main K w).2) = true.
Proof. exec_main K w; norm_model; reflexivity. Qed.

(** C1.  In every run, a provider construction or counter creation in the
    trace is preceded by the settlement of the merged resource's
    asynchronous attributes, and the resource given to the provider is
    settled. *)
Theorem resolution_precedes_pipeline K w j e :
  trace (main K w).2 !! j = Some e →
  builds_pipeline e = true →
  (∃ i, (i < j)%nat ∧ trace (main K w).2 !! i = Some (Settled MergedAttributes)) ∧
  (∀ r, e = NewMeterProvider r → asyncAttributesPending r = false).
Proof.
  intros Hj HP.
  pose proof (main_pipeline_guarded K w) as H.
  apply andb_prop in H as [G F]. split.
  - destruct (guarded_sound _ _ _ G j e Hj HP) as (i & e' & Hi & He' & Ha).
    exists i. split; [done|]. by rewrite <- (is_settled_eq _ _ Ha).
  - intros r ->. rewrite forallb_forall in F.
    apply list_elem_of_lookup_2, list_elem_of_In, F in Hj.
    simpl in Hj. by destruct (asyncAttributesPending r).
Qed.

Lemma resolution_precedes_pipeline_witness :
  (∃ i, (i < 15)%nat ∧
        trace (main otel_semconv w_functions).2 !! i = Some (Settled MergedAttributes)) ∧
  asyncAttributesPending r_functions = false.
Proof.
  assert (trace (main otel_semconv w_functions).2 !! 15%nat =
            Some (NewMeterProvider r_functions)) as H by (by vm_compute).
  destruct (resolution_precedes_pipeline otel_semconv w_functions 15
              (NewMeterProvider r_functions) H eq_refl) as [H1 H2].
  split; [exact H1 | exact (H2 r_functions eq_refl)].
Defined.

(** ** The constants of [Semconv] *)

Lemma keys_distinct_neq K :
  keys_distinct K →
  let ns := SEMRESATTRS_SERVICE_NAMESPACE K in
  let nm := SEMRESATTRS_SERVICE_NAME K in
  let ver := SEMRESATTRS_SERVICE_VERSION K in
  let pod := SEMRESATTRS_K8S_POD_NAME K in
  let plat := SEMRESATTRS_CLOUD_PLATFORM K in
  let inst := SEMRESATTRS_SERVICE_INSTANCE_ID K in
  (ns ≠ nm ∧ ns ≠ ver ∧ ns ≠ pod ∧ ns ≠ plat ∧ ns ≠ inst) ∧
  (nm ≠ ver ∧ nm ≠ pod ∧ nm ≠ plat ∧ nm ≠ inst) ∧
  (ver ≠ pod ∧ ver ≠ plat ∧ ver ≠ inst) ∧
  (pod ≠ plat ∧ pod ≠ inst) ∧
  plat ≠ inst.
Proof.
  unfold keys_distinct. rewrite !NoDup_cons, !not_elem_of_cons.
  simpl. intuition congruence.
Qed.

Lemma otel_keys_distinct : keys_distinct otel_semconv.
Proof. unfold keys_distinct. apply (bool_decide_unpack _). by vm_compute. Qed.

(** ** The orchestration check and the detector *)

Lemma main_orchestration_first K w :
  keys_distinct K →
  quiet_after is_detection (is_orchestration K) false (trace (main K w).2)
  = true ∧
  trace (main K w).2 !! 1%nat = Some (GetEnv "KUBERNETES_SERVICE_HOST").
Proof.
  intros HK. apply keys_distinct_neq in HK. simpl in HK.
  destruct HK as (_ & _ & _ & [Hpp Hpi] & _).
  assert (bool_decide (SEMRESATTRS_CLOUD_PLATFORM K = SEMRESATTRS_K8S_POD_NAME K)
          = false) as E1 by (apply bool_decide_eq_false_2; congruence).
  assert (bool_decide (SEMRESATTRS_SERVICE_INSTANCE_ID K = SEMRESATTRS_K8S_POD_NAME K)
          = false) as E2 by (apply bool_decide_eq_false_2; congruence).
  exec_main K w; norm_model;
    (split; [|reflexivity]);
    lazy beta iota zeta delta
      [quiet_after is_detection is_orchestration orb andb negb];
    rewrite ?E1, ?E2; reflexivity.
Qed.

Lemma detection_not_orchestration K e :
  is_detection e = true → is_orchestration K e = true → False.
Proof. destruct e as [| | | |[]| | | | | | | | | | |]; simpl; discriminate. Qed.

(** C7, counterexample.  Under Kubernetes the detector is called at
    position 4 of the trace and the host signal is read at position 1. *)
Lemma detection_first_fails : ¬ detection_first otel_semconv w_kubernetes.
Proof.
  intros H.
  specialize (H 4%nat 1%nat Detect (GetEnv "KUBERNETES_SERVICE_HOST")).
  assert (4 < 1)%nat; [|lia].
  apply H; by vm_compute.
Qed.

(** C7, as amended.  The host signal is read at the start of every run,
    and every step of the orchestration check (the reads of the two
    variables, the assignment of the pod-name key) comes before the
    detector is called and before its attributes are awaited. *)
Theorem orchestration_precedes_detection K w i j e e' :
  keys_distinct K →
  trace (main K w).2 !! i = Some e →
  trace (main K w).2 !! j = Some e' →
  is_orchestration K e = true →
  is_detection e' = true →
  trace (main K w).2 !! 1%nat = Some (GetEnv "KUBERNETES_SERVICE_HOST") ∧
  (i < j)%nat.
Proof.
  intros HK Hi Hj Ho Hd.
  destruct (main_orchestration_first K w HK) as [HQ H1]. split; [exact H1|].
  pose proof (quiet_after_sound _ _ _ HQ j i e' e Hj Hi Hd Ho) as Hle.
  destruct (decide (i = j)) as [->|]; [|lia].
  rewrite Hi in Hj. simplify_eq.
  destruct (detection_not_orchestration K _ Hd Ho).
Qed.

Lemma orchestration_precedes_detection_witness :
  trace (main otel_semconv w_kubernetes).2 !! 1%nat =
    Some (GetEnv "KUBERNETES_SERVICE_HOST") ∧ (3 < 4)%nat.
Proof.
  apply (orchestration_precedes_detection otel_semconv w_kubernetes 3 4
           (SetAttribute "k8s.pod.name" "counters-7d9f") Detect).
  - apply otel_keys_distinct.
  - by vm_compute.
  - by vm_compute.
  - by vm_compute.
  - reflexivity.
Defined.

(** ** The closed form of the explicit attributes *)

Ltac use_truthy :=
  repeat match goal with H : truthy _ = _ |- _ => rewrite H; clear H end.

Ltac not_in_trace H :=
  apply list_elem_of_In in H; cbn [In] in H;
  repeat (destruct H as [H|H]; [discriminate|]); destruct H.

Ltac norm_resource :=
  cbn [attributes settled merge new_Resource asyncAttributesPending].

Lemma main_resolved K w : resolved_in K w (main K w).2.
Proof.
  exec_main K w; norm_model; unfold resolved_in, explicit_attributes;
    norm_model; use_truthy; norm_resource;
    (split;
     [ repeat constructor
     | let HM := fresh in
       intros HM; first [ reflexivity | not_in_trace HM ] ]).
Qed.

Lemma provider_resource K w r :
  NewMeterProvider r ∈ trace (main K w).2 →
  attributes r = explicit_attributes K w ∪ attributes (detected w) ∧
  RESOURCE_ATTRIBUTES (main K w).2 = explicit_attributes K w.
Proof.
  intros Hr. apply elem_of_providers in Hr.
  destruct (main_resolved K w) as [HF _].
  rewrite Forall_forall in HF. destruct (HF r Hr) as [-> HRA].
  by split.
Qed.

Ltac split_cases :=
  repeat match goal with |- context [if ?b then _ else _] => destruct b end.

Ltac map_lookup :=
  repeat first [ rewrite lookup_insert_eq
               | rewrite lookup_insert_ne by congruence
               | rewrite lookup_empty ];
  try reflexivity.

Section ExplicitAttributes.
Variable K : SemconvT.
Variable w : World.
Hypothesis HK : keys_distinct K.

Lemma explicit_static :
  explicit_attributes K w !! SEMRESATTRS_SERVICE_NAMESPACE K = Some "nielm" ∧
  explicit_attributes K w !! SEMRESATTRS_SERVICE_NAME K = Some "counters-test" ∧
  explicit_attributes K w !! SEMRESATTRS_SERVICE_VERSION K = Some "1.0.0".
Proof.
  pose proof (keys_distinct_neq K HK) as HN; cbn zeta in HN; destruct_and!.
  unfold explicit_attributes, initial; cbn [RESOURCE_ATTRIBUTES].
  split_cases; repeat split; map_lookup.
Qed.

Lemma explicit_platform :
  truthy (env w !! "FUNCTION_TARGET") = true →
  truthy (env w !! "USE_OTEL_GCF_WORKAROUND") = true →
  explicit_attributes K w !! SEMRESATTRS_CLOUD_PLATFORM K = Some "generic_task".
Proof.
  intros Ht Hw. pose proof (keys_distinct_neq K HK) as HN; cbn zeta in HN; destruct_and!.
  unfold explicit_attributes. rewrite Ht, Hw. cbn [andb].
  split_cases; map_lookup.
Qed.

Lemma explicit_instance :
  truthy (env w !! "FUNCTION_TARGET") = true →
  truthy (env w !! "USE_OTEL_GCF_WORKAROUND") = true →
  explicit_attributes K w !! SEMRESATTRS_SERVICE_INSTANCE_ID K =
    if truthy (attributes (detected w) !! SEMRESATTRS_FAAS_ID K)
    then Some (default "" (attributes (detected w) !! SEMRESATTRS_FAAS_ID K))
    else None.
Proof.
  intros Ht Hw. pose proof (keys_distinct_neq K HK) as HN; cbn zeta in HN; destruct_and!.
  unfold explicit_attributes, initial; cbn [RESOURCE_ATTRIBUTES].
  rewrite Ht, Hw. cbn [andb].
  split_cases; map_lookup.
Qed.

Lemma explicit_pod :
  truthy (env w !! "KUBERNETES_SERVICE_HOST") = true →
  explicit_attributes K w !! SEMRESATTRS_K8S_POD_NAME K =
    if truthy (env w !! "K8S_POD_NAME")
    then Some (default "" (env w !! "K8S_POD_NAME"))
    else None.
Proof.
  intros Hh. pose proof (keys_distinct_neq K HK) as HN; cbn zeta in HN; destruct_and!.
  unfold explicit_attributes, initial; cbn [RESOURCE_ATTRIBUTES].
  rewrite Hh. cbn [andb].
  split_cases; map_lookup.
Qed.
End ExplicitAttributes.

(** ** Warnings, and what stops a run *)

Lemma is_warning_elem m tr :
  existsb (is_warning m) tr = true → Log WARN (Text m) ∈ tr.
Proof.
  rewrite existsb_exists. intros (e & He & Hw).
  apply list_elem_of_In in He.
  destruct e as [[] [] | | | | | | | | | | | | | | |]; try discriminate.
  simpl in Hw. apply bool_decide_eq_true in Hw. by subst.
Qed.

Lemma is_merge_elem tr : Merge ∈ tr → existsb is_merge tr = true.
Proof.
  intros H. apply existsb_exists. exists Merge.
  split; [by apply list_elem_of_In | done].
Qed.

Lemma healthy_not_unhealthy w : healthy w → unhealthy w → False.
Proof.
  intros (Ht & Hd & Hm) [(c & e & Hc) | [(o & Ho & Hne) | Hne]].
  - rewrite Ht in Hc. discriminate.
  - destruct Hd as [Hd | Hd]; rewrite Hd in Ho; [discriminate|].
    injection Ho as <-. by apply Hne.
  - by apply Hne.
Qed.

Lemma main_diagnostics K w :
  warned_in K w (main K w).2 = true ∧ completes K w (main K w).
Proof.
  exec_main K w; norm_model;
    (split;
     [ unfold warned_in; norm_model; use_truthy; reflexivity
     | unfold completes, unhealthy; norm_model;
       first [ left; by repeat split
             | right; left; by eauto
             | right; right; left; eexists; split; [eassumption|discriminate]
             | right; right; right; congruence ] ]).
Qed.

Lemma main_ready K w :
  healthy w →
  (main K w).1 = Ready ∧ Merge ∈ trace (main K w).2 ∧
  ∃ r, NewMeterProvider r ∈ trace (main K w).2.
Proof.
  intros Hh. destruct (main_diagnostics K w) as [_ [(HR & HM & HP) | Hu]].
  - split; [done|]. split.
    + apply existsb_exists in HM as (e & He & Hm).
      destruct e; try discriminate. by apply list_elem_of_In.
    + destruct (providers (trace (main K w).2)) as [|r l] eqn:E; [done|].
      exists r. apply elem_of_providers. rewrite E. by left.
  - destruct (healthy_not_unhealthy w Hh Hu).
Qed.

(** ** The example worlds *)

Lemma w_kubernetes_healthy : healthy w_kubernetes.
Proof. split; [done|]. split; [by right | done]. Qed.

Lemma w_functions_healthy : healthy w_functions.
Proof. split; [done|]. split; [by right | done]. Qed.

Lemma w_functions_no_faas_id_healthy : healthy w_functions_no_faas_id.
Proof. split; [done|]. split; [by right | done]. Qed.

Lemma w_kubernetes_no_pod_name_healthy : healthy w_kubernetes_no_pod_name.
Proof. split; [done|]. split; [by right | done]. Qed.

Lemma r_kubernetes_given :
  NewMeterProvider r_kubernetes ∈ trace (main otel_semconv w_kubernetes).2.
Proof. apply (list_elem_of_lookup_2 _ 15%nat). by vm_compute. Qed.

Lemma r_functions_given :
  NewMeterProvider r_functions ∈ trace (main otel_semconv w_functions).2.
Proof. apply (list_elem_of_lookup_2 _ 15%nat). by vm_compute. Qed.

Lemma r_functions_no_faas_id_given :
  NewMeterProvider r_functions_no_faas_id
  ∈ trace (main otel_semconv w_functions_no_faas_id).2.
Proof. apply (list_elem_of_lookup_2 _ 15%nat). by vm_compute. Qed.

Lemma r_kubernetes_no_pod_name_given :
  NewMeterProvider r_kubernetes_no_pod_name
  ∈ trace (main otel_semconv w_kubernetes_no_pod_name).2.
Proof. apply (list_elem_of_lookup_2 _ 15%nat). by vm_compute. Qed.

(** ** The keys of the resolved identity *)

(** C5.  Whatever the environment and the detector hold, a resource
    given to the metrics provider has the three static keys with their
    static values. *)
Theorem static_keys_resolved K w r :
  keys_distinct K →
  NewMeterProvider r ∈ trace (main K w).2 →
  attributes r !! SEMRESATTRS_SERVICE_NAMESPACE K = Some "nielm" ∧
  attributes r !! SEMRESATTRS_SERVICE_NAME K = Some "counters-test" ∧
  attributes r !! SEMRESATTRS_SERVICE_VERSION K = Some "1.0.0".
Proof.
  intros HK Hr. destruct (provider_resource K w r Hr) as [-> _].
  destruct (explicit_static K w HK) as (H1 & H2 & H3).
  repeat split; by apply lookup_union_Some_l.
Qed.

Lemma static_keys_resolved_witness :
  attributes r_kubernetes !! "service.namespace" = Some "nielm" ∧
  attributes r_kubernetes !! "service.name" = Some "counters-test" ∧
  attributes r_kubernetes !! "service.version" = Some "1.0.0".
Proof.
  apply (static_keys_resolved otel_semconv w_kubernetes r_kubernetes).
  - apply otel_keys_distinct.
  - apply r_kubernetes_given.
Defined.

(** C6.  For every key, the resource given to the provider holds the
    value of [RESOURCE_ATTRIBUTES] when the module has assigned the key,
    and otherwise what the detected resource holds for it. *)
Theorem merged_prefers_explicit K w r k :
  NewMeterProvider r ∈ trace (main K w).2 →
  attributes r !! k =
    match RESOURCE_ATTRIBUTES (main K w).2 !! k with
    | Some v => Some v
    | None => attributes (detected w) !! k
    end.
Proof.
  intros Hr. destruct (provider_resource K w r Hr) as [-> ->].
  rewrite lookup_union.
  by destruct (explicit_attributes K w !! k), (attributes (detected w) !! k).
Qed.

Lemma merged_prefers_explicit_witness :
  attributes r_functions !! "cloud.platform" =
    match RESOURCE_ATTRIBUTES (main otel_semconv w_functions).2 !! "cloud.platform" with
    | Some v => Some v
    | None => attributes (detected w_functions) !! "cloud.platform"
    end.
Proof.
  apply (merged_prefers_explicit otel_semconv w_functions r_functions).
  apply r_functions_given.
Defined.

(** C3.  With the function-target signal and the opt-in flag both set
    (to non-empty values), the platform key of the resource given to the
    provider is ["generic_task"], whatever the detector reported for it. *)
Theorem platform_forced_generic_task K w r :
  keys_distinct K →
  truthy (env w !! "FUNCTION_TARGET") = true →
  truthy (env w !! "USE_OTEL_GCF_WORKAROUND") = true →
  NewMeterProvider r ∈ trace (main K w).2 →
  attributes r !! SEMRESATTRS_CLOUD_PLATFORM K = Some "generic_task".
Proof.
  intros HK Ht Hw Hr. destruct (provider_resource K w r Hr) as [-> _].
  apply lookup_union_Some_l. by apply explicit_platform.
Qed.

Lemma platform_forced_generic_task_witness :
  attributes (detected w_functions) !! "cloud.platform" = Some "gcp_cloud_functions" ∧
  attributes r_functions !! "cloud.platform" = Some "generic_task".
Proof.
  split; [reflexivity|].
  apply (platform_forced_generic_task otel_semconv w_functions r_functions).
  - apply otel_keys_distinct.
  - reflexivity.
  - reflexivity.
  - apply r_functions_given.
Defined.

(** C2, counterexample.  The module assigns no instance id, but the merge
    keeps the one the detector reported. *)
Lemma instance_id_omitted_fails :
  ¬ instance_id_omitted otel_semconv w_functions_no_faas_id.
Proof.
  intros H.
  specialize (H eq_refl eq_refl eq_refl r_functions_no_faas_id
                r_functions_no_faas_id_given).
  vm_compute in H. discriminate.
Qed.

(** C2, as amended.  With the opt-in flag and the function-target signal
    set: a non-empty detected function-instance identifier becomes the
    instance id of the resolved identity; when the detector reports none,
    the module assigns no instance id (the resolved identity has the key
    only as the detector reported it), the warning is logged, and a run in
    which nothing outside the module fails reaches the ready state. *)
Theorem instance_id_resolution K w :
  keys_distinct K →
  truthy (env w !! "FUNCTION_TARGET") = true →
  truthy (env w !! "USE_OTEL_GCF_WORKAROUND") = true →
  (∀ r id,
     NewMeterProvider r ∈ trace (main K w).2 →
     attributes (detected w) !! SEMRESATTRS_FAAS_ID K = Some id →
     id ≠ "" →
     attributes r !! SEMRESATTRS_SERVICE_INSTANCE_ID K = Some id) ∧
  (attributes (detected w) !! SEMRESATTRS_FAAS_ID K = None →
   (∀ r, NewMeterProvider r ∈ trace (main K w).2 →
         RESOURCE_ATTRIBUTES (main K w).2 !! SEMRESATTRS_SERVICE_INSTANCE_ID K = None ∧
         attributes r !! SEMRESATTRS_SERVICE_INSTANCE_ID K =
           attributes (detected w) !! SEMRESATTRS_SERVICE_INSTANCE_ID K) ∧
   (Merge ∈ trace (main K w).2 →
    Log WARN (Text FAAS_ID_WARNING) ∈ trace (main K w).2) ∧
   (healthy w →
    (main K w).1 = Ready ∧
    Log WARN (Text FAAS_ID_WARNING) ∈ trace (main K w).2)).
Proof.
  intros HK Ht Hw.
  pose proof (explicit_instance K w HK Ht Hw) as HI. split.
  - intros r id Hr Hid Hne. destruct (provider_resource K w r Hr) as [-> _].
    apply lookup_union_Some_l. rewrite HI, Hid. simpl.
    by rewrite bool_decide_eq_true_2.
  - intros Hnone. rewrite Hnone in HI. simpl in HI.
    assert (Merge ∈ trace (main K w).2 →
            Log WARN (Text FAAS_ID_WARNING) ∈ trace (main K w).2) as HW.
    { intros HM. apply is_merge_elem in HM.
      destruct (main_diagnostics K w) as [Hwarn _].
      unfold warned_in in Hwarn. cbv zeta in Hwarn.
      rewrite HM, Ht, Hw, Hnone in Hwarn. simpl in Hwarn.
      apply andb_prop in Hwarn as [Hwarn _].
      apply andb_prop in Hwarn as [_ Hwarn].
      by apply is_warning_elem. }
    split; [|split; [done|]].
    + intros r Hr. destruct (provider_resource K w r Hr) as [-> ->].
      split; [done|]. by rewrite lookup_union_r.
    + intros Hh. destruct (main_ready K w Hh) as (HR & HM & _).
      split; [done | by apply HW].
Qed.

Lemma instance_id_resolution_witness :
  attributes r_functions !! "service.instance.id" = Some "abc123".
Proof.
  apply (proj1 (instance_id_resolution otel_semconv w_functions
                  otel_keys_distinct eq_refl eq_refl) r_functions "abc123").
  - apply r_functions_given.
  - reflexivity.
  - discriminate.
Defined.

(** C4, counterexample.  The module assigns no pod name, but the merge
    keeps the one the detector reported. *)
Lemma pod_name_omitted_fails :
  ¬ pod_name_omitted otel_semconv w_kubernetes_no_pod_name.
Proof.
  intros H.
  specialize (H eq_refl eq_refl r_kubernetes_no_pod_name
                r_kubernetes_no_pod_name_given).
  vm_compute in H. discriminate.
Qed.

(** C4, as amended.  With the orchestrator host signal set: a non-empty
    pod-name variable becomes the pod-name key of the resolved identity;
    when the variable is absent, the module assigns no pod name (the
    resolved identity has the key only as the detector reported it), the
    warning is logged, and a run in which nothing outside the module fails
    reaches the ready state instead of exiting. *)
Theorem pod_name_resolution K w :
  keys_distinct K →
  truthy (env w !! "KUBERNETES_SERVICE_HOST") = true →
  (∀ r name,
     NewMeterProvider r ∈ trace (main K w).2 →
     env w !! "K8S_POD_NAME" = Some name →
     name ≠ "" →
     attributes r !! SEMRESATTRS_K8S_POD_NAME K = Some name) ∧
  (env w !! "K8S_POD_NAME" = None →
   (∀ r, NewMeterProvider r ∈ trace (main K w).2 →
         RESOURCE_ATTRIBUTES (main K w).2 !! SEMRESATTRS_K8S_POD_NAME K = None ∧
         attributes r !! SEMRESATTRS_K8S_POD_NAME K =
           attributes (detected w) !! SEMRESATTRS_K8S_POD_NAME K) ∧
   Log WARN (Text POD_NAME_WARNING) ∈ trace (main K w).2 ∧
   (healthy w → (main K w).1 = Ready)).
Proof.
  intros HK Hh.
  pose proof (explicit_pod K w HK Hh) as HP. split.
  - intros r name Hr Hname Hne. destruct (provider_resource K w r Hr) as [-> _].
    apply lookup_union_Some_l. rewrite HP, Hname. simpl.
    by rewrite bool_decide_eq_true_2.
  - intros Hnone. rewrite Hnone in HP. simpl in HP.
    split; [|split].
    + intros r Hr. destruct (provider_resource K w r Hr) as [-> ->].
      split; [done|]. by rewrite lookup_union_r.
    + destruct (main_diagnostics K w) as [Hwarn _].
      unfold warned_in in Hwarn. cbv zeta in Hwarn.
      rewrite Hh, Hnone in Hwarn. simpl in Hwarn.
      apply andb_prop in Hwarn as [Hwarn _].
      apply andb_prop in Hwarn as [Hwarn _].
      by apply is_warning_elem.
    + intros Hhealthy. by destruct (main_ready K w Hhealthy).
Qed.

Lemma pod_name_resolution_witness :
  attributes r_kubernetes !! "k8s.pod.name" = Some "counters-7d9f".
Proof.
  apply (proj1 (pod_name_resolution otel_semconv w_kubernetes
                  otel_keys_distinct eq_refl) r_kubernetes "counters-7d9f").
  - apply r_kubernetes_given.
  - reflexivity.
  - discriminate.
Defined.

(** ** How the promise of [initMetrics] ends *)

Lemma load_settles K w : settles_in w (drive (load K w)).
Proof.
  change (drive (load K w)) with (run (drive (load K w))).
  exec; norm_model; unfold settles_in, fulfilled_in, rejected_in; norm_model;
    first [ exact I
          | by repeat split
          | split; [reflexivity|]; split; [reflexivity|];
            first [ by left | right; by split ] ].
Qed.

(** C8, counterexample.  When the second [createCounter] throws, the
    request counter has been created already. *)
Lemma no_counter_on_failure_fails :
  ¬ no_counter_on_failure otel_semconv w_background_counter_fails.
Proof.
  intros H.
  specialize (H "createCounter failed"
                (final_state (drive (load otel_semconv w_background_counter_fails)))
                eq_refl).
  vm_compute in H. discriminate.
Qed.

(** C8, as amended.  When the promise of [initMetrics] is rejected with
    an exception, the exception is logged at error severity and the
    process then exits with status 1; that is the only exit.  The
    background counter is never created, and the request counter is
    created only when the exception comes from the creation of the
    background counter. *)
Theorem failure_is_fatal K w e s0 :
  drive (load K w) = Failed e s0 →
  (main K w).1 = Exited 1 ∧
  trace (main K w).2 = (trace s0 ++ [Log ERROR (Caught e); Exit 1])%list ∧
  exits (trace (main K w).2) = [1] ∧
  backgroundCounter (main K w).2 = None ∧
  (∀ n, CreateCounter n ∈ trace (main K w).2 →
        n = REQUEST_COUNTER ∧
        throws w (CCreateCounter BACKGROUND_COUNTER) = Some e).
Proof.
  intros HF. pose proof (load_settles K w) as HS.
  unfold main. rewrite HF in *. simpl in HS.
  destruct HS as (HE & HB & HC).
  change (final_state (drive (on_rejected e s0)))
    with (record (Exit 1) (record (Log ERROR (Caught e)) s0)).
  cbn [fst snd record trace backgroundCounter].
  rewrite <- app_assoc. cbn [app].
  split; [done|]. split; [done|]. split; [|split; [done|]].
  - unfold exits in *. rewrite omap_app, HE. reflexivity.
  - intros n Hn. apply elem_of_created in Hn.
    unfold created in *. rewrite omap_app in Hn. cbn in Hn.
    rewrite app_nil_r in Hn.
    destruct HC as [HC | [HC Hthrows]]; rewrite HC in Hn.
    + by apply elem_of_nil in Hn.
    + apply list_elem_of_singleton in Hn. by subst.
Qed.

Lemma failure_is_fatal_witness :
  (main otel_semconv w_exporter_fails).1 = Exited 1 ∧
  exits (trace (main otel_semconv w_exporter_fails).2) = [1] ∧
  created (trace (main otel_semconv w_exporter_fails).2) = [].
Proof.
  destruct (failure_is_fatal otel_semconv w_exporter_fails "no credentials"
              (final_state (drive (load otel_semconv w_exporter_fails)))
              eq_refl) as (H1 & _ & H3 & _).
  split; [exact H1|]. split; [exact H3|]. reflexivity.
Defined.

(** ** The two writers *)

Lemma additions_app c tr1 tr2 :
  additions c (tr1 ++ tr2) = (additions c tr1 ++ additions c tr2)%list.
Proof. apply omap_app. Qed.

Lemma responses_app tr1 tr2 :
  responses (tr1 ++ tr2) = (responses tr1 ++ responses tr2)%list.
Proof. apply omap_app. Qed.

Lemma quiet_additions c tr : forallb is_quiet tr = true → additions c tr = [].
Proof.
  induction tr as [|e tr IH]; [done|]. simpl.
  intros H. apply andb_prop in H as [He Htr].
  unfold additions in *. cbn [omap list_omap].
  destruct e; try discriminate; by rewrite IH.
Qed.

Lemma quiet_responses tr : forallb is_quiet tr = true → responses tr = [].
Proof.
  induction tr as [|e tr IH]; [done|]. simpl.
  intros H. apply andb_prop in H as [He Htr].
  unfold responses in *. cbn [omap list_omap].
  destruct e; try discriminate; by rewrite IH.
Qed.

Lemma backgroundTask_bound s bc :
  backgroundCounter s = Some bc →
  drive (backgroundTask s) = Returned tt (record (Add bc 1) s).
Proof.
  intros H. unfold backgroundTask, mbind, Async_bind, bind, read. simpl.
  rewrite H. reflexivity.
Qed.

Lemma handleHttpReq_bound s rc :
  requestCounter s = Some rc →
  drive (handleHttpReq s) =
    Returned tt
      (record (Send "OK")
         (record (Add rc 1)
            (record (Log INFO (Text "handling HTTP request")) s))).
Proof.
  intros H. unfold handleHttpReq, mbind, Async_bind, bind, read. simpl.
  rewrite H. reflexivity.
Qed.

Lemma handleHttpReq_unbound s :
  requestCounter s = None →
  drive (handleHttpReq s) =
    Failed (TypeError "add")
      (record (Log INFO (Text "handling HTTP request")) s).
Proof.
  intros H. unfold handleHttpReq, mbind, Async_bind, bind, read. simpl.
  rewrite H. reflexivity.
Qed.

(** From a state with both counters bound, under different names, every
    task returns, and the tasks add one per tick to the background counter
    and one per request to the request counter, whatever their order. *)
Lemma run_tasks_bound rc bc ts :
  rc ≠ bc →
  ∀ s,
    requestCounter s = Some rc →
    backgroundCounter s = Some bc →
    (run_tasks ts s).1 = replicate (length ts) None ∧
    additions bc (trace (run_tasks ts s).2) =
      (additions bc (trace s) ++ replicate (ticks ts) 1)%list ∧
    additions rc (trace (run_tasks ts s).2) =
      (additions rc (trace s) ++ replicate (requests ts) 1)%list ∧
    responses (trace (run_tasks ts s).2) =
      (responses (trace s) ++ replicate (requests ts) "OK")%list.
Proof.
  intros Hne. induction ts as [|t ts IH]; intros s Hrc Hbc.
  - simpl. by rewrite !app_nil_r.
  - destruct t; cbn [run_tasks run_task].
    + rewrite (backgroundTask_bound s bc Hbc).
      specialize (IH (record (Add bc 1) s) Hrc Hbc).
      destruct (run_tasks ts (record (Add bc 1) s)) as [rs s'].
      cbn [fst snd] in *. destruct IH as (H1 & H2 & H3 & H4).
      cbn [record trace] in *.
      rewrite additions_app in H2, H3. rewrite responses_app in H4.
      unfold additions at 2 in H2. unfold additions at 2 in H3.
      cbn in H2, H3, H4.
      rewrite decide_True in H2 by done.
      rewrite decide_False in H3 by done.
      rewrite app_nil_r in H3, H4.
      unfold ticks, requests in *.
      rewrite filter_cons_True by done.
      rewrite filter_cons_False by done.
      cbn [length]. rewrite H1, H2, H3, H4.
      repeat split; rewrite <- ?app_assoc; reflexivity.
    + rewrite (handleHttpReq_bound s rc Hrc).
      match goal with
      | |- context [run_tasks ts ?s1] =>
          specialize (IH s1 Hrc Hbc);
          destruct (run_tasks ts s1) as [rs s']
      end.
      cbn [fst snd] in *. destruct IH as (H1 & H2 & H3 & H4).
      cbn [record trace] in *.
      rewrite !additions_app in H2, H3. rewrite !responses_app in H4.
      cbn in H2, H3, H4.
      rewrite decide_False in H2 by done.
      rewrite decide_True in H3 by done.
      rewrite !app_nil_r in H2.
      unfold ticks, requests in *.
      rewrite filter_cons_False by done.
      rewrite filter_cons_True by done.
      cbn [length]. rewrite H1, H2, H3, H4.
      repeat split; rewrite <- ?app_assoc; reflexivity.
Qed.

Lemma counters_differ : REQUEST_COUNTER ≠ BACKGROUND_COUNTER.
Proof. by vm_compute. Qed.

(** C9.  Once start-up has reached the ready state, any sequence of timer
    ticks and requests runs without an exception; it adds exactly one to
    the background counter per tick and exactly one to the request counter
    per request, and answers every request with ["OK"]. *)
Theorem writers_count K w s ts :
  main K w = (Ready, s) →
  (run_tasks ts s).1 = replicate (length ts) None ∧
  additions BACKGROUND_COUNTER (trace (run_tasks ts s).2) =
    replicate (ticks ts) 1 ∧
  additions REQUEST_COUNTER (trace (run_tasks ts s).2) =
    replicate (requests ts) 1 ∧
  responses (trace (run_tasks ts s).2) = replicate (requests ts) "OK".
Proof.
  intros HM. pose proof (load_settles K w) as HS.
  unfold main in HM. destruct (drive (load K w)) as [[] s1|e s1|s1];
    try discriminate.
  injection HM as <-. destruct HS as (Hrc & Hbc & Hq).
  change (final_state (drive (on_fulfilled s1)))
    with (record (Log INFO (Text "Background task started - increments counter ever 2 seconds"))
            (record (SetInterval 2000) s1)).
  match goal with
  | |- context [run_tasks ts ?s2] =>
      pose proof (run_tasks_bound REQUEST_COUNTER BACKGROUND_COUNTER ts
                    counters_differ s2 Hrc Hbc) as (H1 & H2 & H3 & H4)
  end.
  cbn [record trace] in H2, H3, H4.
  rewrite <- app_assoc, additions_app,
    (quiet_additions BACKGROUND_COUNTER _ Hq) in H2.
  rewrite <- app_assoc, additions_app,
    (quiet_additions REQUEST_COUNTER _ Hq) in H3.
  rewrite <- app_assoc, responses_app, (quiet_responses _ Hq) in H4.
  by repeat split.
Qed.

Lemma writers_count_witness :
  additions BACKGROUND_COUNTER
    (trace (run_tasks [Tick; Request; Tick; Tick; Request]
              (main otel_semconv w_functions).2).2) = [1; 1; 1] ∧
  additions REQUEST_COUNTER
    (trace (run_tasks [Tick; Request; Tick; Tick; Request]
              (main otel_semconv w_functions).2).2) = [1; 1].
Proof.
  destruct (writers_count otel_semconv w_functions
              (main otel_semconv w_functions).2
              [Tick; Request; Tick; Tick; Request] eq_refl)
    as (_ & H2 & H3 & _).
  split; [exact H2 | exact H3].
Defined.

(** ** Requests before the counters exist *)

(** C10.  In every run the request handler is registered while the module
    loads: in the state the load leaves, and in which [initMetrics] has at
    most reached an [await], the handler is registered, no counter has been
    created and [requestCounter] is unbound.  A request handled in a state
    with [requestCounter] unbound ends with the [TypeError] of [add] on
    [undefined]: nothing is added to any counter and no response is
    sent. *)
Theorem early_request_throws K w :
  RegisterHttp "handleHttpReq" ∈ trace (state_of (load K w)) ∧
  created (trace (state_of (load K w))) = [] ∧
  requestCounter (state_of (load K w)) = None ∧
  backgroundCounter (state_of (load K w)) = None ∧
  drive (handleHttpReq (state_of (load K w))) =
    Failed (TypeError "add")
      (record (Log INFO (Text "handling HTTP request")) (state_of (load K w))) ∧
  (∀ c, additions c (trace (final_state (drive (handleHttpReq (state_of (load K w))))))
        = additions c (trace (state_of (load K w)))) ∧
  responses (trace (final_state (drive (handleHttpReq (state_of (load K w))))))
  = responses (trace (state_of (load K w))).
Proof.
  assert (RegisterHttp "handleHttpReq" ∈ trace (state_of (load K w)) ∧
          created (trace (state_of (load K w))) = [] ∧
          requestCounter (state_of (load K w)) = None ∧
          backgroundCounter (state_of (load K w)) = None) as (H1 & H2 & H3 & H4).
  { pattern (load K w). change (load K w) with (run (load K w)).
    exec; norm_model;
      (split; [apply list_elem_of_In; cbn [In]; tauto | by repeat split]). }
  pose proof (handleHttpReq_unbound _ H3) as HT.
  split; [done|]. split; [done|]. split; [done|]. split; [done|].
  split; [done|]. rewrite HT. cbn [final_state record trace].
  split.
  - intros c. rewrite additions_app. cbn. by rewrite app_nil_r.
  - rewrite responses_app. cbn. by rewrite app_nil_r.
Qed.

(** * Further properties of the module *)

(** ** The shape of a finished run *)

Ltac use_world :=
  repeat match goal with
         | H : ?x = _ |- _ => is_var x; subst x
         | H : throws _ _ = _ |- _ => rewrite H; clear H
         | H : detected_wait _ = _ |- _ => rewrite H; clear H
         | H : merged_wait _ = _ |- _ => rewrite H; clear H
         end.

Lemma load_verdict K w : settles_as (verdict w) (drive (load K w)).
Proof.
  change (drive (load K w)) with (run (drive (load K w))).
  exec; norm_model; unfold verdict; use_world; exact eq_refl || exact I.
Qed.

Lemma main_shape K w : shape_ok K w (main K w) = true.
Proof.
  exec_main K w; norm_model; unfold shape_ok; norm_model; use_truthy;
    reflexivity.
Qed.

Ltac split_andb H :=
  repeat match type of H with
         | _ && _ = true =>
             let H' := fresh in apply andb_prop in H as [H H']; split_andb H'
         end.

Lemma main_outcome_verdict K w : (main K w).1 = outcome_of (verdict w).
Proof.
  pose proof (load_verdict K w) as H. unfold main.
  destruct (drive (load K w)), (verdict w); simpl in *; done.
Qed.

Lemma given_after_merge K w r :
  NewMeterProvider r ∈ trace (main K w).2 → Merge ∈ trace (main K w).2.
Proof.
  intros Hr. apply elem_of_providers in Hr.
  pose proof (main_shape K w) as H. unfold shape_ok in H. cbv zeta in H.
  apply andb_prop in H as [H _]. apply andb_prop in H as [H _].
  apply andb_prop in H as [H _]. apply andb_prop in H as [H _].
  apply andb_prop in H as [_ H].
  destruct (providers (trace (main K w).2)) as [|r1 [|r2 l]];
    [by apply elem_of_nil in Hr | | discriminate].
  apply existsb_exists in H as (e & He & Hm).
  destruct e; try discriminate. by apply list_elem_of_In.
Qed.

(** X1.  In every run the request handler is registered exactly once.
    The background timer is registered, once and with a period of 2000
    ms, exactly in the runs that end ready, and then both counters are
    bound and nothing was logged as an error.  [process.exit] is called,
    once and with status 1, after exactly one error log, exactly in the
    runs in which [initMetrics] is rejected.  A stalled run does
    neither. *)
Theorem outcome_visible_in_trace K w :
  registrations (trace (main K w).2) = ["handleHttpReq"] ∧
  match (main K w).1 with
  | Ready =>
      intervals (trace (main K w).2) = [2000] ∧
      exits (trace (main K w).2) = [] ∧
      errors (trace (main K w).2) = [] ∧
      requestCounter (main K w).2 = Some REQUEST_COUNTER ∧
      backgroundCounter (main K w).2 = Some BACKGROUND_COUNTER
  | Exited c =>
      c = 1 ∧
      intervals (trace (main K w).2) = [] ∧
      exits (trace (main K w).2) = [1] ∧
      length (errors (trace (main K w).2)) = 1%nat
  | Stalled =>
      intervals (trace (main K w).2) = [] ∧
      exits (trace (main K w).2) = [] ∧
      errors (trace (main K w).2) = []
  end.
Proof.
  pose proof (main_shape K w) as H. unfold shape_ok in H. cbv zeta in H.
  destruct (main K w) as [o s]. cbn [fst snd] in *.
  apply andb_prop in H as [H HO].
  do 4 apply andb_prop in H as [H _].
  apply bool_decide_eq_true in H. split; [done|].
  destruct o; split_andb HO;
    repeat match goal with
           | H : bool_decide _ = true |- _ => apply bool_decide_eq_true in H
           | H : (_ =? _)%nat = true |- _ => apply Nat.eqb_eq in H
           | H : length ?l = 0%nat |- _ => apply nil_length_inv in H
           end;
    by repeat split.
Qed.

(** X2.  A run stalls only because an awaited promise never settles.  It
    then has built nothing, neither provider nor counter, while the
    request handler is registered: a request handled in that state ends
    with the [TypeError] of [add] on [undefined]. *)
Theorem stalled_run_serves_nothing K w :
  (main K w).1 = Stalled →
  verdict w = Hangs ∧
  providers (trace (main K w).2) = [] ∧
  created (trace (main K w).2) = [] ∧
  registrations (trace (main K w).2) = ["handleHttpReq"] ∧
  drive (handleHttpReq (main K w).2) =
    Failed (TypeError "add")
      (record (Log INFO (Text "handling HTTP request")) (main K w).2).
Proof.
  intros HS. split.
  { rewrite main_outcome_verdict in HS. by destruct (verdict w). }
  pose proof (main_shape K w) as H. unfold shape_ok in H. cbv zeta in H.
  rewrite HS in H.
  apply andb_prop in H as [H HO].
  do 4 apply andb_prop in H as [H _].
  apply bool_decide_eq_true in H.
  split_andb HO;
    repeat match goal with
           | H : bool_decide _ = true |- _ => apply bool_decide_eq_true in H
           | H : (_ =? _)%nat = true |- _ => apply Nat.eqb_eq in H
           | H : length ?l = 0%nat |- _ => apply nil_length_inv in H
           end.
  repeat split; try done. by apply handleHttpReq_unbound.
Qed.

Lemma stalled_run_serves_nothing_witness :
  verdict w_detector_hangs = Hangs ∧
  providers (trace (main otel_semconv w_detector_hangs).2) = [] ∧
  registrations (trace (main otel_semconv w_detector_hangs).2) = ["handleHttpReq"].
Proof.
  destruct (stalled_run_serves_nothing otel_semconv w_detector_hangs eq_refl)
    as (H1 & H2 & _ & H4 & _).
  by repeat split.
Defined.


(** X4.  How a run ends is decided by the first step, in the order of the
    source, that does not go through: ready when there is none, exit when
    a call throws or an awaited promise is rejected, stalled when an
    awaited promise never settles.  When a step fails, the one error
    logged is the exception of that step. *)
Theorem outcome_by_first_failure K w :
  (main K w).1 = outcome_of (verdict w) ∧
  (∀ e, verdict w = Fails e → errors (trace (main K w).2) = [e]).
Proof.
  split; [apply main_outcome_verdict|].
  intros e Hv.
  pose proof (load_verdict K w) as HL. rewrite Hv in HL.
  pose proof (main_shape K w) as H. unfold shape_ok in H. cbv zeta in H.
  apply andb_prop in H as [_ HO]. revert HO. unfold main.
  destruct (drive (load K w)) as [[] s|e' s|s]; simpl in HL; try done.
  subst e'.
  change (final_state (drive (on_rejected e s)))
    with (record (Exit 1) (record (Log ERROR (Caught e)) s)).
  cbn [fst snd record trace]. intros HO.
  apply andb_prop in HO as [_ HE]. apply Nat.eqb_eq in HE.
  unfold errors in *. rewrite !omap_app in *. cbn in *.
  rewrite app_nil_r in *. rewrite length_app in HE. cbn in HE.
  destruct (omap _ (trace s)) as [|x l]; [done|]. cbn in HE. lia.
Qed.

(** ** More on the resolved identity *)

Lemma explicit_other K w k :
  k ∉ assigned_keys K → explicit_attributes K w !! k = None.
Proof.
  unfold assigned_keys. rewrite !not_elem_of_cons. intros (?&?&?&?&?&?&_).
  unfold explicit_attributes, initial; cbn [RESOURCE_ATTRIBUTES].
  split_cases; map_lookup.
Qed.

Lemma explicit_default K w :
  keys_distinct K →
  (truthy (env w !! "FUNCTION_TARGET") &&
   truthy (env w !! "USE_OTEL_GCF_WORKAROUND")) = false →
  explicit_attributes K w !! SEMRESATTRS_CLOUD_PLATFORM K = None ∧
  explicit_attributes K w !! SEMRESATTRS_SERVICE_INSTANCE_ID K = None.
Proof.
  intros HK Hf. pose proof (keys_distinct_neq K HK) as HN; cbn zeta in HN;
    destruct_and!.
  unfold explicit_attributes, initial; cbn [RESOURCE_ATTRIBUTES].
  rewrite Hf. split_cases; split; map_lookup.
Qed.

Lemma explicit_no_host K w :
  keys_distinct K →
  truthy (env w !! "KUBERNETES_SERVICE_HOST") = false →
  explicit_attributes K w !! SEMRESATTRS_K8S_POD_NAME K = None.
Proof.
  intros HK Hf. pose proof (keys_distinct_neq K HK) as HN; cbn zeta in HN;
    destruct_and!.
  unfold explicit_attributes, initial; cbn [RESOURCE_ATTRIBUTES].
  rewrite Hf. cbn [andb]. split_cases; map_lookup.
Qed.

Lemma is_env_read_elem n tr :
  GetEnv n ∈ tr → existsb (is_env_read n) tr = true.
Proof.
  intros H. apply existsb_exists. exists (GetEnv n).
  split; [by apply list_elem_of_In|]. simpl. by apply bool_decide_eq_true.
Qed.

Lemma is_warning_elem_2 m tr :
  Log WARN (Text m) ∈ tr → existsb (is_warning m) tr = true.
Proof.
  intros H. apply existsb_exists. exists (Log WARN (Text m)).
  split; [by apply list_elem_of_In|]. simpl. by apply bool_decide_eq_true.
Qed.

Lemma given_in w r :
  NewMeterProvider r ∈ trace (main otel_semconv w).2 ↔
  r ∈ providers (trace (main otel_semconv w).2).
Proof. apply elem_of_providers. Qed.

Lemma r_plain_given :
  NewMeterProvider r_plain ∈ trace (main otel_semconv w_plain).2.
Proof. apply given_in. vm_compute. apply list_elem_of_here. Qed.

Lemma r_kubernetes_empty_pod_name_given :
  NewMeterProvider r_kubernetes_empty_pod_name
  ∈ trace (main otel_semconv w_kubernetes_empty_pod_name).2.
Proof. apply given_in. vm_compute. apply list_elem_of_here. Qed.

Lemma r_functions_given_no_wait :
  NewMeterProvider r_functions ∈ trace (main otel_semconv w_functions_no_wait).2.
Proof. apply given_in. vm_compute. apply list_elem_of_here. Qed.

(** X5.  Unless the function-target signal and the opt-in flag are both
    set, the module assigns neither the platform key nor the instance id:
    the resource given to the provider has both as the detector reported
    them, and the default-behaviour warning is logged. *)
Theorem default_behavior_keeps_detected K w r :
  keys_distinct K →
  (truthy (env w !! "FUNCTION_TARGET") &&
   truthy (env w !! "USE_OTEL_GCF_WORKAROUND")) = false →
  NewMeterProvider r ∈ trace (main K w).2 →
  attributes r !! SEMRESATTRS_CLOUD_PLATFORM K =
    attributes (detected w) !! SEMRESATTRS_CLOUD_PLATFORM K ∧
  attributes r !! SEMRESATTRS_SERVICE_INSTANCE_ID K =
    attributes (detected w) !! SEMRESATTRS_SERVICE_INSTANCE_ID K ∧
  Log WARN (Text DEFAULT_BEHAVIOR_WARNING) ∈ trace (main K w).2.
Proof.
  intros HK Hf Hr.
  destruct (explicit_default K w HK Hf) as [HP HI].
  pose proof (given_after_merge K w r Hr) as HM. apply is_merge_elem in HM.
  destruct (provider_resource K w r Hr) as [-> _].
  split; [by rewrite lookup_union_r|]. split; [by rewrite lookup_union_r|].
  destruct (main_diagnostics K w) as [Hwarn _].
  unfold warned_in in Hwarn. cbv zeta in Hwarn.
  apply andb_prop in Hwarn as [_ Hwarn].
  rewrite HM, Hf in Hwarn. simpl in Hwarn.
  by apply is_warning_elem.
Qed.

Lemma default_behavior_keeps_detected_witness :
  attributes r_plain !! "cloud.platform" = Some "gcp_compute_engine" ∧
  Log WARN (Text DEFAULT_BEHAVIOR_WARNING) ∈ trace (main otel_semconv w_plain).2.
Proof.
  destruct (default_behavior_keeps_detected otel_semconv w_plain r_plain
              otel_keys_distinct eq_refl r_plain_given) as (H1 & _ & H3).
  split; [exact H1 | exact H3].
Defined.

(** X6.  Without the orchestrator host signal the pod-name variable is
    never read, the pod-name warning is never logged, and the module
    assigns no pod name: the resource given to the provider has that key
    as the detector reported it. *)
Theorem no_host_signal_skips_pod_name K w :
  truthy (env w !! "KUBERNETES_SERVICE_HOST") = false →
  (GetEnv "K8S_POD_NAME" ∉ trace (main K w).2) ∧
  (Log WARN (Text POD_NAME_WARNING) ∉ trace (main K w).2) ∧
  (keys_distinct K →
   ∀ r, NewMeterProvider r ∈ trace (main K w).2 →
        attributes r !! SEMRESATTRS_K8S_POD_NAME K =
          attributes (detected w) !! SEMRESATTRS_K8S_POD_NAME K).
Proof.
  intros Hf.
  pose proof (main_shape K w) as H. unfold shape_ok in H. cbv zeta in H.
  apply andb_prop in H as [H _]. apply andb_prop in H as [H _].
  apply andb_prop in H as [_ H]. rewrite Hf, orb_false_r in H.
  apply negb_true_iff, orb_false_iff in H as [H1 H2].
  split; [|split].
  - intros Hin. apply is_env_read_elem in Hin. congruence.
  - intros Hin. apply is_warning_elem_2 in Hin. congruence.
  - intros HK r Hr. destruct (provider_resource K w r Hr) as [-> _].
    by rewrite lookup_union_r; [|apply explicit_no_host].
Qed.

Lemma no_host_signal_skips_pod_name_witness :
  GetEnv "K8S_POD_NAME" ∉ trace (main otel_semconv w_plain).2.
Proof.
  exact (proj1 (no_host_signal_skips_pod_name otel_semconv w_plain eq_refl)).
Defined.

(** X7.  An empty string counts as unset.  With the host signal set and
    the pod-name variable set to the empty string, the warning is logged
    and no pod name is assigned; with the workaround on and an empty
    detected function-instance identifier, the warning is logged and no
    instance id is assigned; and a host signal set to the empty string
    switches the orchestration check off. *)
Theorem empty_values_count_as_unset K w :
  keys_distinct K →
  (truthy (env w !! "KUBERNETES_SERVICE_HOST") = true →
   env w !! "K8S_POD_NAME" = Some "" →
   Log WARN (Text POD_NAME_WARNING) ∈ trace (main K w).2 ∧
   ∀ r, NewMeterProvider r ∈ trace (main K w).2 →
        attributes r !! SEMRESATTRS_K8S_POD_NAME K =
          attributes (detected w) !! SEMRESATTRS_K8S_POD_NAME K) ∧
  (truthy (env w !! "FUNCTION_TARGET") = true →
   truthy (env w !! "USE_OTEL_GCF_WORKAROUND") = true →
   attributes (detected w) !! SEMRESATTRS_FAAS_ID K = Some "" →
   ∀ r, NewMeterProvider r ∈ trace (main K w).2 →
        Log WARN (Text FAAS_ID_WARNING) ∈ trace (main K w).2 ∧
        attributes r !! SEMRESATTRS_SERVICE_INSTANCE_ID K =
          attributes (detected w) !! SEMRESATTRS_SERVICE_INSTANCE_ID K) ∧
  (env w !! "KUBERNETES_SERVICE_HOST" = Some "" →
   GetEnv "K8S_POD_NAME" ∉ trace (main K w).2).
Proof.
  intros HK. destruct (main_diagnostics K w) as [Hwarn _].
  unfold warned_in in Hwarn. cbv zeta in Hwarn.
  apply andb_prop in Hwarn as [Hwarn _].
  apply andb_prop in Hwarn as [Hw1 Hw2].
  split; [|split].
  - intros Hh Hp. split.
    + rewrite Hh, Hp in Hw1. simpl in Hw1. by apply is_warning_elem.
    + intros r Hr. destruct (provider_resource K w r Hr) as [-> _].
      pose proof (explicit_pod K w HK Hh) as HP. rewrite Hp in HP.
      simpl in HP. by rewrite lookup_union_r.
  - intros Ht Hwa Hid r Hr.
    pose proof (given_after_merge K w r Hr) as HM. apply is_merge_elem in HM.
    split.
    + rewrite HM, Ht, Hwa, Hid in Hw2. simpl in Hw2. by apply is_warning_elem.
    + destruct (provider_resource K w r Hr) as [-> _].
      pose proof (explicit_instance K w HK Ht Hwa) as HI. rewrite Hid in HI.
      simpl in HI. by rewrite lookup_union_r.
  - intros Hh.
    apply (proj1 (no_host_signal_skips_pod_name K w
                    ltac:(by rewrite Hh))).
Qed.

(** X8.  The merge drops nothing the detector reported: every detected
    key is a key of the resource given to the provider, and a key other
    than the six the module may assign keeps the detector's value (or
    stays absent). *)
Theorem detector_keys_survive K w r k :
  NewMeterProvider r ∈ trace (main K w).2 →
  (is_Some (attributes (detected w) !! k) → is_Some (attributes r !! k)) ∧
  (k ∉ assigned_keys K →
   attributes r !! k = attributes (detected w) !! k).
Proof.
  intros Hr. destruct (provider_resource K w r Hr) as [-> _]. split.
  - intros [v Hv]. rewrite lookup_union.
    destruct (explicit_attributes K w !! k); rewrite Hv; by eexists.
  - intros Hk. by rewrite lookup_union_r; [|apply explicit_other].
Qed.

Lemma detector_keys_survive_witness :
  attributes r_plain !! "cloud.availability_zone" = Some "us-central1-a".
Proof.
  apply (proj2 (detector_keys_survive otel_semconv w_plain r_plain
                  "cloud.availability_zone" r_plain_given)).
  unfold assigned_keys. apply (bool_decide_unpack _). by vm_compute.
Defined.

(** X9.  The resource given to the provider is a function of the
    environment and of the detected attributes alone: two runs that agree
    on these give their providers the same resource, however the promises
    settle in each and whether or not the detected resource has a
    [waitForAsyncAttributes]. *)
Theorem identity_depends_on_inputs_only K w w' r r' :
  env w = env w' →
  attributes (detected w) = attributes (detected w') →
  NewMeterProvider r ∈ trace (main K w).2 →
  NewMeterProvider r' ∈ trace (main K w').2 →
  r = r'.
Proof.
  intros He Ha Hr Hr'.
  apply elem_of_providers in Hr, Hr'.
  destruct (main_resolved K w) as [HF _].
  destruct (main_resolved K w') as [HF' _].
  rewrite Forall_forall in HF, HF'.
  destruct (HF r Hr) as [-> _]. destruct (HF' r' Hr') as [-> _].
  unfold settled, merge, new_Resource, explicit_attributes. simpl.
  by rewrite He, Ha.
Qed.

Lemma identity_depends_on_inputs_only_witness : r_functions = r_functions.
Proof.
  apply (identity_depends_on_inputs_only otel_semconv
           w_functions w_functions_no_wait r_functions r_functions).
  - reflexivity.
  - reflexivity.
  - apply r_functions_given.
  - apply r_functions_given_no_wait.
Defined.

(** X10.  Whether start-up ends ready, exits or stalls does not depend
    on the environment variables, on the detected attributes or on the
    constants of [Semconv]: two worlds whose calls throw alike and whose
    promises settle alike end alike. *)
Theorem outcome_ignores_identity_inputs K K' w w' :
  (∀ c, throws w c = throws w' c) →
  detected_wait w = detected_wait w' →
  merged_wait w = merged_wait w' →
  (main K w).1 = (main K' w').1.
Proof.
  intros Ht Hd Hm. rewrite !main_outcome_verdict.
  unfold verdict. by rewrite !Ht, Hd, Hm.
Qed.

Lemma outcome_ignores_identity_inputs_witness :
  (main otel_semconv w_kubernetes_no_pod_name).1 = (main otel_semconv w_functions).1.
Proof.
  apply outcome_ignores_identity_inputs; reflexivity.
Defined.

(** ** Tasks in any state *)

Lemma backgroundTask_unbound s :
  backgroundCounter s = None →
  drive (backgroundTask s) = Failed (TypeError "add") s.
Proof.
  intros H. unfold backgroundTask, mbind, Async_bind, bind, read. simpl.
  rewrite H. reflexivity.
Qed.

Lemma exits_app tr1 tr2 : exits (tr1 ++ tr2) = (exits tr1 ++ exits tr2)%list.
Proof. apply omap_app. Qed.

(** X11.  Timer ticks and requests, in any number and order and from any
    state (also one in which a counter is still unbound, where they end
    with an exception), never rebind a counter, never change
    [RESOURCE_ATTRIBUTES], never exit the process and never remove an
    event: they only append to the trace, and each task ends. *)
Theorem tasks_preserve_bindings ts s :
  RESOURCE_ATTRIBUTES (run_tasks ts s).2 = RESOURCE_ATTRIBUTES s ∧
  requestCounter (run_tasks ts s).2 = requestCounter s ∧
  backgroundCounter (run_tasks ts s).2 = backgroundCounter s ∧
  trace s `prefix_of` trace (run_tasks ts s).2 ∧
  exits (trace (run_tasks ts s).2) = exits (trace s) ∧
  length (run_tasks ts s).1 = length ts.
Proof.
  revert s. induction ts as [|t ts IH]; intros s.
  - simpl. by repeat split.
  - assert (∃ c s1,
              drive (run_task t s) = c ∧ final_state c = s1 ∧
              (∀ s', c ≠ Pending s') ∧
              RESOURCE_ATTRIBUTES s1 = RESOURCE_ATTRIBUTES s ∧
              requestCounter s1 = requestCounter s ∧
              backgroundCounter s1 = backgroundCounter s ∧
              trace s `prefix_of` trace s1 ∧
              exits (trace s1) = exits (trace s)) as (c & s1 & Hc & Hs1 & HP & H).
    { destruct t; simpl.
      - destruct (backgroundCounter s) as [bc|] eqn:Hb.
        + rewrite (backgroundTask_bound s bc Hb). eexists _, _.
          split; [done|]. split; [done|]. split; [done|].
          cbn [final_state record RESOURCE_ATTRIBUTES requestCounter backgroundCounter trace].
          rewrite exits_app, app_nil_r.
          repeat split; try done. by eexists.
        + rewrite (backgroundTask_unbound s Hb). eexists _, _.
          split; [done|]. split; [done|]. split; [done|].
          cbn [final_state]. by repeat split.
      - destruct (requestCounter s) as [rc|] eqn:Hr.
        + rewrite (handleHttpReq_bound s rc Hr). eexists _, _.
          split; [done|]. split; [done|]. split; [done|].
          cbn [final_state record RESOURCE_ATTRIBUTES requestCounter backgroundCounter trace].
          rewrite !exits_app, !app_nil_r, <- !app_assoc.
          repeat split; try done. by eexists.
        + rewrite (handleHttpReq_unbound s Hr). eexists _, _.
          split; [done|]. split; [done|]. split; [done|].
          cbn [final_state record RESOURCE_ATTRIBUTES requestCounter backgroundCounter trace].
          rewrite exits_app, app_nil_r.
          repeat split; try done. by eexists. }
    destruct H as (H1 & H2 & H3 & H4 & H5).
    cbn [run_tasks]. rewrite Hc.
    destruct c as [[] sc|e sc|sc]; [| |by destruct (HP sc)];
      cbn [final_state] in Hs1; subst sc;
      specialize (IH s1); destruct (run_tasks ts s1) as [rs s2];
      cbn [fst snd length] in *;
      destruct IH as (I1 & I2 & I3 & I4 & I5 & I6);
      (split; [congruence|]); (split; [congruence|]); (split; [congruence|]);
      (split; [by etrans|]); (split; [congruence|]); by rewrite I6.
Qed.

(** ** The logger module *)

Lemma lower_upper_ascii c : lower_ascii (upper_ascii c) = lower_ascii c.
Proof. by destruct c as [[] [] [] [] [] [] [] []]. Qed.

Lemma toLowerCase_toUpperCase s : toLowerCase (toUpperCase s) = toLowerCase s.
Proof.
  induction s as [|c s IH]; [done|]. simpl. by rewrite lower_upper_ascii, IH.
Qed.

Lemma toLowerCase_empty s : toLowerCase s = "" ↔ s = "".
Proof. by destruct s. Qed.

Lemma toUpperCase_ascii s : is_ascii s = true → is_ascii (toUpperCase s) = true.
Proof.
  unfold is_ascii. induction s as [|c s IH]; [done|]. simpl.
  intros H. apply andb_prop in H as [Hc Hs]. rewrite (IH Hs), andb_true_r.
  revert Hc. by destruct c as [[] [] [] [] [] [] [] []].
Qed.

Section LoggerModuleFacts.
Variable resolveLevel : string → exn + Z.
Variable bunyan_DEBUG : Z.
Context {Arg : Type}.
Variable JSON_stringify : list Arg → string.

(** X12.  The level selector is read without regard to case: two ASCII
    values of [LOG_LEVEL] that differ only in the case of their letters
    give the same level, or the same exception. *)
Theorem getLogLevel_ignores_case env v v' :
  is_ascii v = true → is_ascii v' = true →
  toLowerCase v = toLowerCase v' →
  getLogLevel resolveLevel bunyan_DEBUG (<["LOG_LEVEL" := v]> env) =
  getLogLevel resolveLevel bunyan_DEBUG (<["LOG_LEVEL" := v']> env).
Proof.
  intros _ _ H. unfold getLogLevel. rewrite !lookup_insert_eq. simpl.
  assert (bool_decide (v ≠ "") = bool_decide (v' ≠ "")) as ->.
  { apply bool_decide_ext. rewrite <- (toLowerCase_empty v),
      <- (toLowerCase_empty v'). by rewrite H. }
  by rewrite H.
Qed.


(** X14.  Each of the five diagnostic methods hands the logger exactly
    one record and leaves the earlier ones alone.  The record has the
    level of the method (verbose goes to trace, the other four keep their
    name), the rendered arguments, and the message behind the prefix
    ["otel: "]: dropping the six characters of the prefix gives the
    message back, so different diagnostics stay different. *)
Theorem diag_bridge_keeps_level_and_message m message args log :
  ∃ r,
    OTEL_DIAG_BUNYAN_LOGGER JSON_stringify m message args log = (log ++ [r])%list ∧
    record_level r =
      match m with
      | Verbose => TRACE | Debug => DEBUG | Info => INFO
      | Warn => WARN | Error => ERROR
      end ∧
    record_fields r = JSON_stringify args ∧
    String.prefix "otel: " (record_message r) = true ∧
    String.substring 6 (String.length message) (record_message r) = message.
Proof.
  assert (String.substring 0 (String.length message) message = message) as HS.
  { induction message as [|c s IH]; [done|]. simpl. by rewrite IH. }
  destruct m; eexists; (split; [reflexivity|]); simpl;
    (split; [done|]); (split; [done|]); (split; [|exact HS]);
    by destruct message.
Qed.
End LoggerModuleFacts.

Lemma getLogLevel_ignores_case_witness :
  getLogLevel sample_resolveLevel 20 {[ "LOG_LEVEL" := "WARN" ]} =
  getLogLevel sample_resolveLevel 20 {[ "LOG_LEVEL" := "Warn" ]}.
Proof.
  apply (getLogLevel_ignores_case sample_resolveLevel 20 ∅ "WARN" "Warn");
    reflexivity.
Defined.

Lemma empty_values_count_as_unset_witness :
  Log WARN (Text POD_NAME_WARNING)
  ∈ trace (main otel_semconv w_kubernetes_empty_pod_name).2 ∧
  attributes r_kubernetes_empty_pod_name !! "k8s.pod.name" = None.
Proof.
  destruct (proj1 (empty_values_count_as_unset otel_semconv
                     w_kubernetes_empty_pod_name otel_keys_distinct)
              eq_refl eq_refl) as [H1 H2].
  split; [exact H1|]. exact (H2 _ r_kubernetes_empty_pod_name_given).
Defined.
